(** * pdfedit: a model of [mark.py]

    [mark.py] stamps per-student information on the pages of a template
    PDF.  It drives two libraries: PyPDF2 (reading, copying, merging and
    collecting pages) and reportlab (drawing on a canvas).  The script's
    own classes and its [merge] loop are embedded below, function by
    function; the two libraries are represented by the small part of
    their behaviour the script relies on:

    - a page object is the list of drawing operators of its content,
      that is what the page paints, in order; [mergePage] rebinds the
      content of the receiving page to its old content followed by the
      content of the merged page.  How PyPDF2 wraps the two content
      streams, and the names it gives to resources (a font of the merged
      page whose name is taken gets a new name with a fresh [uuid4]),
      are not represented: two pages are equal here when they paint the
      same, and nothing below is a statement on the bytes of a file;
    - a canvas records the operators drawn on the current page together
      with its graphics state, [showPage] closes the current page and
      [save] writes the closed pages to the buffer; an operator refuses
      coordinates that are no numbers, and a frame draws a table only
      where it has room for it;
    - numbers are binary64 floats, as in Python, and an integer is
      turned into text only up to Python's limit of digits.

    The exceptions modelled are those of the script's own subscripts,
    of [render] in the base class, of coordinates the drawing library
    cannot write and of integers Python cannot print.  Other failures of
    the libraries and of the system (an input file that is no PDF, an
    output file that cannot be written) are outside the model.

    Objects that are shared and mutated live in a store and are addressed
    by reference: the context dictionary, which [merge] receives from
    its caller and updates in place; the pages of the input document and
    the copies [merge] makes of them, some of which it merges upon while
    the reader still holds the others; the writer.  A mask page is built
    by [get_mask_page] from a private buffer which nothing else refers
    to, and is handed over as a value; students and the teacher are
    never changed and are values too. *)

From Stdlib Require Import Floats ZArith.
From stdpp Require Import gmap strings list fin_maps ssreflect.

Set Warnings "-inexact-float,-register-all,-rewrite-rw".

Open Scope float_scope.
Open Scope stdpp_scope.

(** ** Python values and exceptions *)

(** The values the context dictionary holds: integers (ids, page
    numbers), strings (names, the school) and dictionaries (a student,
    the teacher). *)
Inductive value :=
| VInt (n : Z)
| VStr (s : string)
| VDict (d : gmap string value).

Abbreviation dict := (gmap string value).

(** The exceptions the script can run into; [OverflowError] and
    [ValueError] come from the drawing library and from the conversion
    of integers to text.  [DanglingReference] is no
    Python exception: it marks a reference that points to no object of
    the store, which cannot happen in Python and which the theorems on
    [merge] exclude by their hypotheses on the state. *)
Inductive exn :=
| IndexError
| KeyError (key : string)
| TypeError
| AttributeError
| NotImplementedError
| OverflowError
| ValueError
| DanglingReference.

(** The outcome of a call: a returned value or a raised exception. *)
Inductive res (A : Type) :=
| Ok (a : A)
| Raise (e : exn).
Arguments Ok {A} a.
Arguments Raise {A} e.

#[global] Instance res_ret : MRet res := @Ok.
#[global] Instance res_bind : MBind res := λ A B f m,
  match m with
  | Ok a => f a
  | Raise e => Raise e
  end.

Definition is_Ok {A} (r : res A) : bool :=
  match r with Ok _ => true | Raise _ => false end.

(** [d[k]] on a dictionary. *)
Definition dict_getitem (d : dict) (k : string) : res value :=
  match d !! k with
  | Some v => Ok v
  | None => Raise (KeyError k)
  end.

(** [v[k]] on any value: only dictionaries take a string subscript. *)
Definition getitem (v : value) (k : string) : res value :=
  match v with
  | VDict d => dict_getitem d k
  | _ => Raise TypeError
  end.

(** [l[i]] on a list, for an index that is not negative. *)
Definition list_getitem {A} (l : list A) (i : nat) : res A :=
  match l !! i with
  | Some x => Ok x
  | None => Raise IndexError
  end.

(** A string handed to the drawing library: an object the library turns
    into text with [str], or [template.format( *args )].  The text that
    comes out is kept symbolic; [printable] says when the
    conversion fails. *)
Inductive text :=
| Str (v : value)
| Format (template : string) (args : list value).

(** CPython refuses to convert an integer of more than
    [sys.get_int_max_str_digits()] decimal digits to text, with a
    [ValueError]; the default limit is 4300.  A dictionary is printed
    with its values.  [printable v]: [str(v)] returns. *)
Definition int_max_str_digits : Z := 4300.

(** [10 ^ int_max_str_digits], written out. *)
Definition int_str_limit : Z := Eval vm_compute in (10 ^ 4300)%Z.

Fixpoint printable (v : value) : bool :=
  match v with
  | VInt n => (Z.abs n <? int_str_limit)%Z
  | VStr _ => true
  | VDict d => map_fold (λ _ v' acc, printable v' && acc) true d
  end.

(** [template.format( *args )], for a template of plain [{}] fields. *)
Definition format (template : string) (args : list value) : res text :=
  if forallb printable args then Ok (Format template args)
  else Raise ValueError.

(** ** reportlab: units, page sizes, colours *)

Definition float_of_nat (n : nat) : float :=
  PrimFloat.of_uint63 (Uint63.of_Z (Z.of_nat n)).

(** [reportlab.lib.units] and [reportlab.lib.pagesizes.A4]. *)
Definition inch : float := 72.
Definition cm : float := inch / 2.54.
Definition mm : float := cm * 0.1.
Definition A4 : float * float := (210 * mm, 297 * mm).

Inductive color := black | white.

(** ** reportlab: tables, frames and the canvas *)

Inductive TableStyleCommand :=
| FONTSIZE (start stop : Z * Z) (size : Z)
| LEFTPADDING (start stop : Z * Z) (padding : Z)
| BACKGROUND (start stop : Z * Z) (c : color).

Record Table := {
  data : list (string * text);
  colWidths : list float;
  rowHeights : list float;
  style : list TableStyleCommand
}.

Record Frame := {
  x1 : float;
  y1 : float;
  width : float;
  height : float;
  leftPadding : float;
  rightPadding : float;
  topPadding : float;
  bottomPadding : float
}.

(** [reportlab.rl_config._FUZZ]. *)
Definition _FUZZ : float := 1e-6.

(** [fp_str( *a )] of [reportlab.lib.rl_accel], with which every drawing
    operator writes its coordinates: for each number in turn that is
    not close to zero it takes [int(log10(abs(x)))], which Python
    refuses for a NaN ([ValueError]) and for an infinity
    ([OverflowError]). *)
Fixpoint fp_str (a : list float) : res unit :=
  match a with
  | [] => Ok tt
  | x :: a' =>
      if is_nan x then Raise ValueError
      else if is_infinity x then Raise OverflowError
      else fp_str a'
  end.
Arguments fp_str : simpl never.

(** The size [Table.wrap] gives for a table whose column widths and row
    heights are all given: their sums, from [0] on. *)
Definition Table_width (t : Table) : float := foldl PrimFloat.add 0 (colWidths t).
Definition Table_height (t : Table) : float := foldl PrimFloat.add 0 (rowHeights t).

(** [Frame._add(t, canv)] on a fresh frame: where the table is drawn,
    or [None] when the frame has no room for it.  Then nothing is drawn
    and nothing raised ([rl_config.allowTableBoundsErrors] is set).  At
    the top of a frame no space is left before the table; a table is
    centred in the width that is left. *)
Definition Frame_add (f : Frame) (t : Table) : option (float * float) :=
  let y := y1 f + height f - topPadding f in
  let p := y1 f + bottomPadding f in
  let aW := x1 f + width f - (x1 f + leftPadding f) - rightPadding f in
  let h := y - p in
  if 0 <? h then
    let y := y - Table_height t in
    if y <? p - _FUZZ then None
    else Some (x1 f + leftPadding f + 0.5 * (aW - Table_width t), y)
  else None.
Arguments Frame_add : simpl never.

(** [Table.drawOn(canv, x, y)], as far as it can fail: the origin is
    moved to [(x, y)], and every cell that is no string is turned into
    text with [str]. *)
Definition Table_drawOn (t : Table) (x y : float) : res unit :=
  fp_str [1; 0; 0; 1; x; y] ;;
  if forallb (λ cell, match cell.2 with Str v => printable v | Format _ _ => true end)
       (data t)
  then Ok tt else Raise ValueError.

(** The operators of a page's content.  A drawing operator carries the
    part of the graphics state it is drawn with: a rectangle its stroke
    and fill colours ([None] for [stroke=0] or [fill=0]) and the line
    width, a string its font and fill colour.  [Raw] is content of the
    input document, which the script never looks into. *)
Inductive op :=
| Rect (x y w h : float) (stroke fill : option color) (lineWidth : float)
| DrawString (x y : float) (t : text) (font : string * Z) (fill : color)
| DrawRightString (x y : float) (t : text) (font : string * Z) (fill : color)
| AddFromList (f : Frame) (flowables : list Table)
| Raw (stream : string).

(** A PDF document, as written to or read from a buffer: its pages. *)
Abbreviation document := (list (list op)).

(** [io.BytesIO()]: an empty buffer. *)
Definition BytesIO : document := [].

Record Canvas := {
  _pagesize : float * float;
  _strokeColor : color;
  _fillColor : color;
  _lineWidth : float;
  _font : string * Z;
  _code : list op;
  _pages : document
}.

(** [canvas.Canvas(packet, pagesize=...)]: a fresh canvas with
    reportlab's initial graphics state.  The canvas writes to [packet]
    only in [save], which gives the buffer's new content. *)
Definition Canvas_new (packet : document) (pagesize : float * float) : Canvas :=
  {| _pagesize := pagesize; _strokeColor := black; _fillColor := black;
     _lineWidth := 1; _font := ("Helvetica"%string, 12%Z);
     _code := []; _pages := [] |}.

Definition setStrokeColor (c : Canvas) (col : color) : Canvas :=
  {| _pagesize := _pagesize c; _strokeColor := col; _fillColor := _fillColor c;
     _lineWidth := _lineWidth c; _font := _font c;
     _code := _code c; _pages := _pages c |}.

Definition setFillColor (c : Canvas) (col : color) : Canvas :=
  {| _pagesize := _pagesize c; _strokeColor := _strokeColor c; _fillColor := col;
     _lineWidth := _lineWidth c; _font := _font c;
     _code := _code c; _pages := _pages c |}.

Definition setLineWidth (c : Canvas) (w : float) : Canvas :=
  {| _pagesize := _pagesize c; _strokeColor := _strokeColor c;
     _fillColor := _fillColor c; _lineWidth := w; _font := _font c;
     _code := _code c; _pages := _pages c |}.

Definition setFont (c : Canvas) (name : string) (size : Z) : Canvas :=
  {| _pagesize := _pagesize c; _strokeColor := _strokeColor c;
     _fillColor := _fillColor c; _lineWidth := _lineWidth c;
     _font := (name, size); _code := _code c; _pages := _pages c |}.

(** Appends one operator to the page being drawn. *)
Definition emit (c : Canvas) (o : op) : Canvas :=
  {| _pagesize := _pagesize c; _strokeColor := _strokeColor c;
     _fillColor := _fillColor c; _lineWidth := _lineWidth c; _font := _font c;
     _code := _code c ++ [o]; _pages := _pages c |}.

(** [canvas.rect(x, y, width, height, stroke=..., fill=...)]. *)
Definition rect (c : Canvas) (x y w h : float) (stroke fill : bool) : res Canvas :=
  fp_str [x; y; w; h] ;;
  Ok (emit c (Rect x y w h
                (if stroke then Some (_strokeColor c) else None)
                (if fill then Some (_fillColor c) else None)
                (_lineWidth c))).

(** [canvas.drawString(x, y, t)]: the text object starts at [(x, y)]. *)
Definition drawString (c : Canvas) (x y : float) (t : text) : res Canvas :=
  fp_str [x; y] ;;
  Ok (emit c (DrawString x y t (_font c) (_fillColor c))).

(** [canvas.drawRightString(x, y, t)]: the text object starts at [x]
    less the width of the text, which is a number as [x] is. *)
Definition drawRightString (c : Canvas) (x y : float) (t : text) : res Canvas :=
  fp_str [x; y] ;;
  Ok (emit c (DrawRightString x y t (_font c) (_fillColor c))).

(** [f.addFromList([t], canvas)] on a fresh frame [f]: the table is
    drawn when the frame has room for it. *)
Definition addFromList (f : Frame) (t : Table) (c : Canvas) : res Canvas :=
  match Frame_add f t with
  | None => Ok c
  | Some (x, y) => Table_drawOn t x y ;; Ok (emit c (AddFromList f [t]))
  end.

(** [canvas.showPage()]: the page being drawn is closed and a new, empty
    one is started, in the initial graphics state. *)
Definition showPage (c : Canvas) : Canvas :=
  {| _pagesize := _pagesize c; _strokeColor := black; _fillColor := black;
     _lineWidth := 1; _font := ("Helvetica"%string, 12%Z);
     _code := []; _pages := _pages c ++ [_code c] |}.

(** [canvas.save()]: a page still being drawn is closed first, then the
    document is written to the buffer; the result is the buffer's new
    content. *)
Definition save (c : Canvas) : document :=
  match _code c with
  | [] => _pages c
  | _ => _pages (showPage c)
  end.

(** ** PyPDF2: page objects *)

Record PageObject := { contents : list op }.

(** [PdfFileReader(packet)] on a buffer the caller owns: the pages of the
    document in the buffer. *)
Definition PdfFileReader (packet : document) : list PageObject :=
  (λ ops, {| contents := ops |}) <$> packet.

(** [self.mergePage(page2)]: what [self] becomes, as far as painting
    goes: the content of [page2] is painted over the content of [self].
    The resource names PyPDF2 makes up on the way are not represented. *)
Definition PageObject_mergePage (self page2 : PageObject) : PageObject :=
  {| contents := contents self ++ contents page2 |}.

(** ** The mask factories of [mark.py] *)

(** The attributes [TaskPageMask.__init__] and [AnswerSheetMask.__init__]
    set on [self]; both classes have the same six. *)
Record attrs := {
  left_margin : float;
  right_margin : float;
  top_margin : float;
  box_height : float;
  box_width : float;
  bottom_margin : float
}.

(** An object of one of the five classes.  [MaskFactory] is the base
    class itself, whose [render] is not implemented. *)
Inductive factory :=
| MaskFactory
| EmptyPageMask
| TaskPageMask (self : attrs)
| AnswerSheetMask (self : attrs)
| MultipleMaskFactory (factories : list factory).

(** The class attribute [MaskFactory.pagesize]. *)
Definition pagesize : float * float := A4.

Definition TaskPageMask__init__
    (box_height left_margin right_margin top_margin : float) : factory :=
  TaskPageMask
    {| left_margin := left_margin;
       right_margin := right_margin;
       top_margin := top_margin;
       box_height := box_height;
       box_width := pagesize.1 - left_margin - right_margin;
       bottom_margin := pagesize.2 - top_margin - box_height |}.

Definition AnswerSheetMask__init__
    (box_height box_width right_margin top_margin : float) : factory :=
  AnswerSheetMask
    {| right_margin := right_margin;
       top_margin := top_margin;
       box_height := box_height;
       box_width := box_width;
       left_margin := pagesize.1 - right_margin - box_width;
       bottom_margin := pagesize.2 - top_margin - box_height |}.





Definition MaskFactory_get_canvas (packet : document) : Canvas :=
  Canvas_new packet pagesize.

(** [self.get_canvas(packet)], by class. *)
Definition get_canvas (self : factory) (packet : document) : Canvas :=
  match self with
  | TaskPageMask _ =>
      let canvas := MaskFactory_get_canvas packet in
      let canvas := setStrokeColor canvas black in
      let canvas := setFillColor canvas white in
      let canvas := setLineWidth canvas (0.2 * mm) in
      canvas
  | AnswerSheetMask _ =>
      let canvas := MaskFactory_get_canvas packet in
      let canvas := setStrokeColor canvas black in
      let canvas := setFillColor canvas white in
      let canvas := setLineWidth canvas (0.2 * mm) in
      let canvas := setFont canvas "Helvetica" 8 in
      canvas
  | _ => MaskFactory_get_canvas packet
  end.

(** [Table(data, ...)] with its style, and [Frame(...)], as
    [TaskPageMask.render] builds them. *)
Definition TaskPageMask_table (self : attrs) (data : list (string * text)) : Table :=
  {| data := data;
     colWidths := [30 * mm; box_width self - 32 * mm];
     rowHeights :=
       replicate (length data)
         ((box_height self - 3 * mm) / float_of_nat (length data));
     style := [
       FONTSIZE (0, 0)%Z (-1, -1)%Z 8;
       LEFTPADDING (0, 0)%Z (0, -1)%Z 13;
       BACKGROUND (0, 0)%Z (-1, -1)%Z white
     ] |}.

Definition TaskPageMask_frame (self : attrs) : Frame :=
  {| x1 := left_margin self; y1 := bottom_margin self;
     width := box_width self; height := box_height self;
     leftPadding := 1 * mm; rightPadding := 1 * mm;
     topPadding := 2.5 * mm; bottomPadding := 0 * mm |}.

Definition TaskPageMask_render (self : attrs) (canvas : Canvas) (context : dict)
    : res Canvas :=
  canvas ← rect canvas (left_margin self) (bottom_margin self)
             (box_width self) (box_height self) true true;
  student ← dict_getitem context "student";
  last_name ← getitem student "last_name";
  student ← dict_getitem context "student";
  first_name ← getitem student "first_name";
  teacher ← dict_getitem context "teacher";
  teacher_last ← getitem teacher "last_name";
  teacher ← dict_getitem context "teacher";
  teacher_first ← getitem teacher "first_name";
  teacher_name ← format "{} {}" [teacher_last; teacher_first];
  student ← dict_getitem context "student";
  id ← getitem student "id";
  school ← dict_getitem context "school";
  let data := [
    ("Last name:"%string, Str last_name);
    ("Name:"%string, Str first_name);
    ("Teacher:"%string, teacher_name);
    ("ID:"%string, Str id);
    ("School:"%string, Str school)
  ] in
  let t := TaskPageMask_table self data in
  let f := TaskPageMask_frame self in
  addFromList f t canvas.

Definition AnswerSheetMask_render (self : attrs) (canvas : Canvas) (context : dict)
    : res Canvas :=
  canvas ← rect canvas (left_margin self) (bottom_margin self)
             (box_width self) (box_height self) false true;
  let canvas := setFillColor canvas black in
  student ← dict_getitem context "student";
  id ← getitem student "id";
  t ← format "ID: {}" [id];
  canvas ← drawString canvas
             (left_margin self + 2 * mm) (bottom_margin self + 2 * mm) t;
  page_num ← dict_getitem context "page_num";
  t ← format "(Seite {})" [page_num];
  drawRightString canvas
    (left_margin self + box_width self - 2 * mm)
    (bottom_margin self + 2 * mm) t.




(** [self.render(canvas, context)], by class.  [MultipleMaskFactory] has
    no such method. *)
Definition render (self : factory) (canvas : Canvas) (context : dict) : res Canvas :=
  match self with
  | MaskFactory => Raise NotImplementedError
  | EmptyPageMask => Ok canvas
  | TaskPageMask a => TaskPageMask_render a canvas context
  | AnswerSheetMask a => AnswerSheetMask_render a canvas context
  | MultipleMaskFactory _ => Raise AttributeError
  end.

(** [MaskFactory.get_mask_page], inherited by the four mask classes.
    [packet.seek(0)] rewinds the buffer for the reader and leaves its
    content as it is. *)
Definition MaskFactory_get_mask_page (self : factory) (context : dict)
    : res PageObject :=
  let packet := BytesIO in
  let c := get_canvas self packet in
  c ← render self c context;
  let c := showPage c in
  let packet := save c in
  list_getitem (PdfFileReader packet) 0.

(** The loop of [MultipleMaskFactory.get_mask_page]:
    [for f in fs: page.mergePage(f.get_mask_page(context))], where
    [get f] is [f.get_mask_page(context)]; it ends with the page that is
    returned. *)
Section merge_masks.
Variable get : factory → res PageObject.

Fixpoint merge_masks (fs : list factory) (page : PageObject) : res PageObject :=
  match fs with
  | [] => Ok page
  | f :: fs' =>
      mask ← get f;
      merge_masks fs' (PageObject_mergePage page mask)
  end.
End merge_masks.

(** [self.get_mask_page(context)], by class; the [MultipleMaskFactory]
    case is [MultipleMaskFactory.get_mask_page]. *)
Fixpoint get_mask_page (self : factory) (context : dict) : res PageObject :=
  match self with
  | MultipleMaskFactory factories =>
      match factories with
      | [] => Raise IndexError
      | f0 :: rest =>
          page ← get_mask_page f0 context;
          merge_masks (λ f, get_mask_page f context) rest page
      end
  | _ => MaskFactory_get_mask_page self context
  end.

(** The classes that inherit [MaskFactory.get_mask_page] and have a
    [render] method. *)
Definition has_render (self : factory) : bool :=
  match self with
  | MultipleMaskFactory _ => false
  | _ => true
  end.

(** ** The configuration of [mark.py] *)

Definition simple_header_mask : factory :=
  AnswerSheetMask__init__ (10 * mm) (42 * mm) (11 * mm) (15 * mm).

Definition mapping : list factory := [
  EmptyPageMask;
  MultipleMaskFactory [
    TaskPageMask__init__ (25 * mm) (20.5 * mm) (14.5 * mm) (28 * mm);
    simple_header_mask
  ];
  simple_header_mask;
  simple_header_mask;
  simple_header_mask
].

Definition student (first_name last_name : string) (id : Z) : value :=
  VDict (<["first_name" := VStr first_name]>
        (<["last_name" := VStr last_name]>
        (<["id" := VInt id]> ∅))).

Definition students : list value := [
  student "Jonathan" "Stoppani" 123455;
  student "Vanessa" "Tay" 98635;
  student "Jakub" "Janoszek" 19757
].

Definition context0 : dict :=
  <["teacher" := VDict (<["first_name" := VStr "Urs"]>
                       (<["last_name" := VStr "Moser"]> ∅))]>
  (<["school" := VStr "DIVIO Test School"]> ∅).

(** ** The store and the effects of [merge] *)

(** The mutable objects [merge] works on, each addressed by a reference,
    which is an index into its store: dictionaries (the context is one),
    page objects, and writers (a writer is the list of the references of
    its pages, in the order they were added). *)
Record state := {
  dict_store : list dict;
  page_store : list PageObject;
  writer_store : list (list nat)
}.

(** A computation changes the state and returns or raises; the state
    survives an exception. *)
Definition M (A : Type) : Type := state → res A * state.

#[global] Instance M_ret : MRet M := λ A a st, (Ok a, st).
#[global] Instance M_bind : MBind M := λ A B f m st,
  match m st with
  | (Ok a, st') => f a st'
  | (Raise e, st') => (Raise e, st')
  end.

Definition lift {A} (r : res A) : M A := λ st, (r, st).

(** The dictionary behind reference [d], as it is now. *)
Definition load (d : nat) : M dict := λ st,
  match dict_store st !! d with
  | Some c => (Ok c, st)
  | None => (Raise DanglingReference, st)
  end.

(** [d.update({k: v})]: the dictionary behind [d] is changed in place. *)
Definition dict_update (d : nat) (k : string) (v : value) : M unit := λ st,
  match dict_store st !! d with
  | Some c =>
      (Ok tt, {| dict_store := <[d := <[k := v]> c]> (dict_store st);
                 page_store := page_store st;
                 writer_store := writer_store st |})
  | None => (Raise DanglingReference, st)
  end.

(** [f.get_mask_page(context)] with a reference for [context]: the
    factory reads the dictionary behind it and does not change it. *)
Definition call_get_mask_page (f : factory) (context : nat) : M PageObject :=
  c ← load context;
  lift (get_mask_page f c).

(** A [PdfFileReader] over the input file: the references of its page
    objects.  [getPage] returns the same object at every call. *)
Record reader := { flattenedPages : list nat }.

Definition getNumPages (input_pdf : reader) : nat :=
  length (flattenedPages input_pdf).

Definition getPage (input_pdf : reader) (pageNumber : nat) : M nat :=
  lift (list_getitem (flattenedPages input_pdf) pageNumber).

(** [copy.copy(page)]: a new page object with the content of [page]. *)
Definition copy_copy (page : nat) : M nat := λ st,
  match page_store st !! page with
  | Some p =>
      (Ok (length (page_store st)),
       {| dict_store := dict_store st;
          page_store := page_store st ++ [p];
          writer_store := writer_store st |})
  | None => (Raise DanglingReference, st)
  end.

(** [page.mergePage(page2)] on a page object of the store. *)
Definition mergePage (page : nat) (page2 : PageObject) : M unit := λ st,
  (Ok tt, {| dict_store := dict_store st;
             page_store :=
               alter (λ self, PageObject_mergePage self page2) page (page_store st);
             writer_store := writer_store st |}).

(** [PdfFileWriter()]: a new writer without pages. *)
Definition PdfFileWriter : M nat := λ st,
  (Ok (length (writer_store st)),
   {| dict_store := dict_store st;
      page_store := page_store st;
      writer_store := writer_store st ++ [[]] |}).

(** [output_pdf.addPage(page)]. *)
Definition addPage (output_pdf page : nat) : M unit := λ st,
  (Ok tt, {| dict_store := dict_store st;
             page_store := page_store st;
             writer_store := alter (λ ps, ps ++ [page]) output_pdf (writer_store st) |}).

(** [for x in xs: body]. *)
Fixpoint for_ {A} (xs : list A) (body : A → M unit) : M unit :=
  match xs with
  | [] => mret tt
  | x :: xs' => body x ;; for_ xs' body
  end.

(** [range(n)]. *)
Definition range (n : nat) : list nat := seq 0 n.

(** ** [merge] *)

(** The body of the inner loop of [merge]. *)
Definition merge_page (context : nat) (mapping : list factory)
    (input_pdf : reader) (output_pdf : nat) (page_num : nat) : M unit :=
  dict_update context "page_num" (VInt (Z.of_nat page_num)) ;;
  page ← getPage input_pdf page_num;
  page ← copy_copy page;
  f ← lift (list_getitem mapping page_num);
  mask ← call_get_mask_page f context;
  mergePage page mask ;;
  addPage output_pdf page.

(** The body of the outer loop of [merge]. *)
Definition merge_student (context : nat) (mapping : list factory)
    (input_pdf : reader) (output_pdf : nat) (student : value) : M unit :=
  dict_update context "student" student ;;
  for_ (range (getNumPages input_pdf))
    (merge_page context mapping input_pdf output_pdf).

(** [merge(context, students, mapping, input_pdf)]; [context] is a
    reference to the caller's dictionary, the result a reference to the
    new writer. *)
Definition merge (context : nat) (students : list value)
    (mapping : list factory) (input_pdf : reader) : M nat :=
  output_pdf ← PdfFileWriter;
  for_ students (merge_student context mapping input_pdf output_pdf) ;;
  mret output_pdf.

(** What a writer holds: the page objects its references point to. *)
Definition writer_pages (st : state) (output_pdf : nat) : list PageObject :=
  match writer_store st !! output_pdf with
  | Some refs => omap (λ l, page_store st !! l) refs
  | None => []
  end.

(** The input document is in the store: the reader's references point
    to the page objects [tpls], in order. *)
Definition reader_ok (st : state) (input_pdf : reader) (tpls : list PageObject) : Prop :=
  mapM (λ l, page_store st !! l) (flattenedPages input_pdf) = Some tpls.

(** What the caller of [merge] gets to see: the pages of the returned
    writer, or the exception. *)
Definition output (run : res nat * state) : exn + list PageObject :=
  match run.1 with
  | Ok output_pdf => inr (writer_pages run.2 output_pdf)
  | Raise e => inl e
  end.

(** ** The pages [merge] produces, as a list of jobs *)

(** The context a mask factory is given for [student] and page [i]. *)
Definition ctx_at (ctx : dict) (student : value) (i : nat) : dict :=
  <["page_num" := VInt (Z.of_nat i)]> (<["student" := student]> ctx).

(** Input page content [tpl], stamped with the mask of entry [i] of the
    mapping under context [ctx]. *)
Definition personalize (mapping : list factory) (ctx : dict)
    (tpl : PageObject) (i : nat) : res PageObject :=
  f ← list_getitem mapping i;
  mask ← get_mask_page f ctx;
  Ok (PageObject_mergePage tpl mask).

(** One job per input page from index [i] on, for one student: the
    content of the fresh copy and what becomes of it. *)
Fixpoint page_jobs (mapping : list factory) (ctx : dict) (student : value)
    (i : nat) (tpls : list PageObject) : list (PageObject * res PageObject) :=
  match tpls with
  | [] => []
  | tpl :: rest =>
      (tpl, personalize mapping (ctx_at ctx student i) tpl i)
        :: page_jobs mapping ctx student (S i) rest
  end.

(** All jobs, student by student. *)
Definition all_jobs (mapping : list factory) (ctx : dict)
    (tpls : list PageObject) (students : list value)
    : list (PageObject * res PageObject) :=
  students ≫= (λ student, page_jobs mapping ctx student 0 tpls).

(** Jobs are run in order until one fails: the pages produced, and for a
    failure the copy left unmerged and the exception. *)
Fixpoint collect (jobs : list (PageObject * res PageObject))
    : list PageObject * option (PageObject * exn) :=
  match jobs with
  | [] => ([], None)
  | (_, Ok p) :: jobs' => let '(ps, f) := collect jobs' in (p :: ps, f)
  | (tpl, Raise e) :: _ => ([], Some (tpl, e))
  end.

(** The copy a failed job leaves in the store. *)
Definition leftover (f : option (PageObject * exn)) : list PageObject :=
  match f with Some (tpl, _) => [tpl] | None => [] end.

Definition outcome {A} (a : A) (f : option (PageObject * exn)) : res A :=
  match f with Some (_, e) => Raise e | None => Ok a end.

(** The context agrees with [ctx] on every key [merge] does not set. *)
Definition ctx_frame (ctx c : dict) : Prop :=
  ∀ k, k ≠ "student"%string → k ≠ "page_num"%string → c !! k = ctx !! k.

(** ** The script's call of [merge] *)

(** The state in which the script calls [merge]: the context dictionary
    (behind reference [0]), the page objects of the input document
    [doc], and no writer yet. *)
Definition initial_state (context : dict) (doc : list PageObject) : state :=
  {| dict_store := [context]; page_store := doc; writer_store := [] |}.

(** [input_pdf = PdfFileReader(fh)] over that store. *)
Definition input_reader (doc : list PageObject) : reader :=
  {| flattenedPages := seq 0 (length doc) |}.

(** The script's own call of [merge], on the input document [doc]. *)
Definition run_script (doc : list PageObject) : res nat * state :=
  merge 0 students mapping (input_reader doc) (initial_state context0 doc).

(** An input page with opaque content. *)
Definition template_page (name : string) : PageObject :=
  {| contents := [Raw name] |}.

(** A five-page input document, one page per entry of [mapping]. *)
Definition template : list PageObject :=
  template_page <$> ["cover"; "tasks"; "answers 1"; "answers 2"; "answers 3"]%string.

(** A six-page input document: one page more than [mapping] has
    entries. *)
Definition long_template : list PageObject :=
  template ++ [template_page "appendix"].

(** The task mask of the configuration. *)
Definition task_mask : factory :=
  TaskPageMask__init__ (25 * mm) (20.5 * mm) (14.5 * mm) (28 * mm).

(** The context of the script with its last student on page 1. *)
Definition sample_context : dict :=
  ctx_at context0 (student "Jakub" "Janoszek" 19757) 1.

(** ** Shapes of factories and contexts *)

(** Some object of the base class [MaskFactory] occurs in [f]. *)
Fixpoint contains_base (f : factory) : bool :=
  match f with
  | MaskFactory => true
  | MultipleMaskFactory fs => existsb contains_base fs
  | _ => false
  end.

(** Some [MultipleMaskFactory] with an empty list of factories occurs in
    [f]. *)
Fixpoint contains_empty (f : factory) : bool :=
  match f with
  | MultipleMaskFactory fs =>
      match fs with
      | [] => true
      | _ => existsb contains_empty fs
      end
  | _ => false
  end.

(** What an exception of [get_mask_page] on [f] says about [f]: an
    [IndexError] that [f] contains an empty [MultipleMaskFactory], a
    [NotImplementedError] that it contains an object of the base class,
    a [KeyError] that the key is one the masks read. *)
Definition explains (f : factory) (e : exn) : Prop :=
  match e with
  | IndexError => contains_empty f = true
  | NotImplementedError => contains_base f = true
  | KeyError k =>
      k ∈ ["student"; "last_name"; "first_name"; "teacher"; "id"; "school";
           "page_num"]%string
  | TypeError | OverflowError | ValueError => True
  | AttributeError | DanglingReference => False
  end.

(** The keys of the context the masks read. *)
Definition mask_keys : list string :=
  ["student"; "teacher"; "school"; "page_num"]%string.

(** ** The script's main part *)

(** The files the script can open: a path names a PDF document, given
    by its pages. *)
Abbreviation filesystem := (gmap string (list PageObject)).

(** How a run of the script can fail: with an exception of the code
    above, or because the input file cannot be opened. *)
Inductive failure :=
| Raised (e : exn)
| IOError (path : string).

(** The last lines of [mark.py]: the two paths are taken from
    [sys.argv], the input file is opened and read, [merge] is called
    with the script's context, students and mapping, and then the output
    file is opened and the writer written to it.  Opening a path for
    writing is taken to succeed, and a file that can be opened to be a
    PDF document the reader can read.  The result is the failure, if any, and
    the files after the run.  When both paths name the same file the
    reader's file is truncated under it; the model says nothing faithful
    about that case, and the theorems on a returning run exclude it. *)
Definition main (argv : list string) (fs : filesystem)
    : option failure * filesystem :=
  match list_getitem argv 1 with
  | Raise e => (Some (Raised e), fs)
  | Ok input_path =>
      match list_getitem argv 2 with
      | Raise e => (Some (Raised e), fs)
      | Ok output_path =>
          match fs !! input_path with
          | None => (Some (IOError input_path), fs)
          | Some doc =>
              match run_script doc with
              | (Raise e, _) => (Some (Raised e), fs)
              | (Ok output_pdf, st) =>
                  (None, <[output_path := writer_pages st output_pdf]> fs)
              end
          end
      end
  end.

(** ** Lemmas on contexts *)

Lemma ctx_frame_refl ctx : ctx_frame ctx ctx.
Proof. by intros k _ _. Qed.

Lemma ctx_frame_student ctx c s :
  ctx_frame ctx c → ctx_frame ctx (<["student" := s]> c).
Proof.
  intros H k Hs Hp. rewrite lookup_insert_ne; [by apply H | done].
Qed.

Lemma ctx_frame_page_num ctx c v :
  ctx_frame ctx c → ctx_frame ctx (<["page_num" := v]> c).
Proof.
  intros H k Hs Hp. rewrite lookup_insert_ne; [by apply H | done].
Qed.

(** Setting the page number in a context that holds student [s] gives
    [ctx_at], whatever page number and student were there before. *)
Lemma ctx_at_frame ctx c s i :
  ctx_frame ctx c → c !! "student" = Some s →
  <["page_num" := VInt (Z.of_nat i)]> c = ctx_at ctx s i.
Proof.
  intros Hf Hs. apply map_eq. intros k. unfold ctx_at.
  destruct (decide (k = "page_num"%string)) as [->|Hp].
  { by rewrite !lookup_insert_eq. }
  rewrite !(lookup_insert_ne _ "page_num") //.
  destruct (decide (k = "student"%string)) as [->|Hk].
  { by rewrite lookup_insert_eq. }
  rewrite lookup_insert_ne //. by apply Hf.
Qed.

Lemma ctx_at_student ctx s i : ctx_at ctx s i !! "student" = Some s.
Proof. unfold ctx_at. by rewrite lookup_insert_ne // lookup_insert_eq. Qed.

Lemma ctx_at_page_num ctx s i :
  ctx_at ctx s i !! "page_num" = Some (VInt (Z.of_nat i)).
Proof. unfold ctx_at. by rewrite lookup_insert_eq. Qed.

Lemma ctx_at_other ctx s i k :
  k ≠ "student"%string → k ≠ "page_num"%string → ctx_at ctx s i !! k = ctx !! k.
Proof. intros. unfold ctx_at. by rewrite !lookup_insert_ne. Qed.

(** ** The input document in the store *)

Lemma reader_ok_length st r tpls :
  reader_ok st r tpls → length (flattenedPages r) = length tpls.
Proof. intros H. apply mapM_Some in H. by eapply Forall2_length. Qed.

Lemma reader_ok_lookup st r tpls j tpl :
  reader_ok st r tpls → tpls !! j = Some tpl →
  ∃ l, flattenedPages r !! (0 + j)%nat = Some l ∧ page_store st !! l = Some tpl.
Proof.
  intros H Hj. apply mapM_Some in H.
  destruct (Forall2_lookup_r _ _ _ _ _ H Hj) as (l & Hl & Hp). by exists l.
Qed.

(** Objects added to the store leave the input document where it is. *)
Lemma reader_ok_app st r tpls ds ext ws :
  reader_ok st r tpls →
  reader_ok {| dict_store := ds; page_store := page_store st ++ ext;
               writer_store := ws |} r tpls.
Proof.
  unfold reader_ok. rewrite !mapM_Some. simpl.
  intros H. eapply Forall2_impl; [exact H|].
  intros l p. apply lookup_app_l_Some.
Qed.

(** ** One iteration of the inner loop *)

Lemma alter_at_end {A} (f : A → A) (l : list A) (x : A) :
  alter f (length l) (l ++ [x]) = l ++ [f x].
Proof.
  replace (length l) with (length l + 0)%nat by lia.
  by rewrite alter_app_r.
Qed.

(** An iteration sets the page number in the context and copies the
    input page, then either stamps the copy and adds it to the writer,
    or raises and leaves the copy behind. *)
Lemma merge_page_step context mapping r w i l tpl d st :
  dict_store st !! context = Some d →
  flattenedPages r !! i = Some l →
  page_store st !! l = Some tpl →
  merge_page context mapping r w i st =
    let c := <["page_num" := VInt (Z.of_nat i)]> d in
    match personalize mapping c tpl i with
    | Ok p =>
        (Ok tt,
         {| dict_store := <[context := c]> (dict_store st);
            page_store := page_store st ++ [p];
            writer_store :=
              alter (λ ps, ps ++ [length (page_store st)]) w (writer_store st) |})
    | Raise e =>
        (Raise e,
         {| dict_store := <[context := c]> (dict_store st);
            page_store := page_store st ++ [tpl];
            writer_store := writer_store st |})
    end.
Proof.
  intros Hd Hl Htpl. pose proof (lookup_lt_Some _ _ _ Hd) as Hlt.
  unfold merge_page, personalize, call_get_mask_page, mbind, M_bind, res_bind,
    dict_update, load, getPage, lift, list_getitem, copy_copy, mergePage, addPage.
  simpl. rewrite Hd Hl. simpl. rewrite Htpl. simpl.
  destruct (mapping !! i) as [f|]; [|done].
  simpl. rewrite list_lookup_insert_eq; [|done].
  destruct (get_mask_page f _) as [mask|e]; [|done].
  simpl. by rewrite alter_at_end.
Qed.

(** ** Lemmas on jobs *)

Lemma page_jobs_length mapping ctx s i tpls :
  length (page_jobs mapping ctx s i tpls) = length tpls.
Proof. revert i. induction tpls as [|tpl rest IH]; intros i; simpl; auto. Qed.

Lemma page_jobs_lookup mapping ctx s tpls : ∀ i j tpl,
  tpls !! j = Some tpl →
  page_jobs mapping ctx s i tpls !! j
  = Some (tpl, personalize mapping (ctx_at ctx s (i + j)) tpl (i + j)%nat).
Proof.
  induction tpls as [|tpl0 rest IH]; intros i j tpl Hj; [done|].
  destruct j as [|j]; simpl in *.
  - injection Hj as ->. by rewrite Nat.add_0_r.
  - rewrite (IH (S i) j tpl Hj). by replace (S i + j)%nat with (i + S j)%nat by lia.
Qed.

Lemma all_jobs_length mapping ctx tpls students :
  length (all_jobs mapping ctx tpls students) = (length students * length tpls)%nat.
Proof.
  unfold all_jobs. induction students as [|s rest IH]; [done|].
  rewrite bind_cons length_app IH page_jobs_length. simpl. lia.
Qed.

(** The job of student number [s] and page [i] is job [s * n + i]. *)
Lemma all_jobs_lookup mapping ctx tpls students : ∀ s i student tpl,
  students !! s = Some student → tpls !! i = Some tpl →
  all_jobs mapping ctx tpls students !! (s * length tpls + i)%nat
  = Some (tpl, personalize mapping (ctx_at ctx student i) tpl i).
Proof.
  unfold all_jobs.
  induction students as [|s0 rest IH]; intros s i student tpl Hs Hi; [done|].
  rewrite bind_cons. destruct s as [|s]; simpl in Hs.
  - injection Hs as ->. simpl.
    rewrite lookup_app_l; [|rewrite page_jobs_length; by eapply lookup_lt_Some].
    by rewrite (page_jobs_lookup _ _ _ _ 0 i tpl Hi).
  - rewrite lookup_app_r page_jobs_length; [|simpl; lia].
    replace (S s * length tpls + i - length tpls)%nat
      with (s * length tpls + i)%nat by (simpl; lia).
    by apply IH.
Qed.

Lemma collect_None jobs ps :
  collect jobs = (ps, None) → Forall2 (λ job p, job.2 = Ok p) jobs ps.
Proof.
  revert ps. induction jobs as [|[tpl [p|e]] jobs IH]; intros ps H; simpl in H.
  - injection H as <-. constructor.
  - destruct (collect jobs) as [ps' f]. injection H as <- ->.
    constructor; [done | by apply IH].
  - done.
Qed.

Lemma collect_Some jobs ps tpl e :
  collect jobs = (ps, Some (tpl, e)) →
  Forall2 (λ job p, job.2 = Ok p) (take (length ps) jobs) ps
  ∧ jobs !! length ps = Some (tpl, Raise e).
Proof.
  revert ps. induction jobs as [|[tpl0 [p|e0]] jobs IH]; intros ps H; simpl in H.
  - done.
  - destruct (collect jobs) as [ps' f]. injection H as <- ->.
    destruct (IH ps' eq_refl) as [H1 H2]. simpl. split; [by constructor | done].
  - injection H as <- <- <-. simpl. split; [constructor | done].
Qed.

(** Every page produced is the result of the job at its position. *)
Lemma collect_lookup jobs : ∀ ps f k p,
  collect jobs = (ps, f) → ps !! k = Some p →
  ∃ tpl, jobs !! k = Some (tpl, Ok p).
Proof.
  induction jobs as [|[tpl [p0|e]] jobs IH]; intros ps f k p H Hk; simpl in H.
  - by injection H as <- <-.
  - destruct (collect jobs) as [ps' f'] eqn:Hc. injection H as <- <-.
    destruct k as [|k]; simpl in Hk.
    + injection Hk as ->. by exists tpl.
    + by apply (IH ps' f' k p).
  - by injection H as <- <-.
Qed.

Lemma collect_all_Ok jobs :
  Forall (λ job, is_Ok job.2 = true) jobs → (collect jobs).2 = None.
Proof.
  induction 1 as [|[tpl [p|e]] jobs Hx _ IH]; simpl in *; try done.
  by destruct (collect jobs).
Qed.

Lemma collect_first_failure js1 js2 ps tpl e :
  Forall2 (λ job p, job.2 = Ok p) js1 ps →
  collect (js1 ++ (tpl, Raise e) :: js2) = (ps, Some (tpl, e)).
Proof.
  intros H. induction H as [|[tpl0 r0] p js1' ps' Hx _ IH]; simpl.
  - done.
  - simpl in Hx. subst r0. by rewrite IH.
Qed.

(** A produced page is the stamped copy of its input page. *)
Lemma personalize_Ok mapping ctx tpl i p :
  personalize mapping ctx tpl i = Ok p →
  ∃ f mask, mapping !! i = Some f ∧ get_mask_page f ctx = Ok mask
            ∧ p = PageObject_mergePage tpl mask.
Proof.
  unfold personalize, mbind, res_bind, list_getitem.
  destruct (mapping !! i) as [f|]; [|done].
  destruct (get_mask_page f ctx) as [mask|e] eqn:Hm; [|done].
  intros [= <-]. by exists f, mask.
Qed.

Lemma produced_lookup mapping ctx tpls students ps s i student tpl :
  collect (all_jobs mapping ctx tpls students) = (ps, None) →
  students !! s = Some student → tpls !! i = Some tpl →
  ∃ f mask, mapping !! i = Some f
            ∧ get_mask_page f (ctx_at ctx student i) = Ok mask
            ∧ ps !! (s * length tpls + i)%nat = Some (PageObject_mergePage tpl mask).
Proof.
  intros Hc Hs Hi. apply collect_None in Hc.
  pose proof (all_jobs_lookup mapping ctx tpls students s i student tpl Hs Hi) as Hj.
  destruct (Forall2_lookup_l _ _ _ _ _ Hc Hj) as (p & Hp & Hjob).
  simpl in Hjob. apply personalize_Ok in Hjob as (f & mask & Hf & Hm & ->).
  by exists f, mask.
Qed.

Lemma produced_length mapping ctx tpls students ps :
  collect (all_jobs mapping ctx tpls students) = (ps, None) →
  length ps = (length students * length tpls)%nat.
Proof.
  intros Hc. apply collect_None, Forall2_length in Hc.
  by rewrite -Hc all_jobs_length.
Qed.

(** ** The loops of [merge] *)

Lemma collect_app js1 js2 :
  collect (js1 ++ js2) =
    match collect js1 with
    | (ps, None) => let '(qs, f) := collect js2 in (ps ++ qs, f)
    | (ps, Some x) => (ps, Some x)
    end.
Proof.
  induction js1 as [|[tpl [p|e]] js1 IH]; simpl.
  - by destruct (collect js2).
  - rewrite IH. destruct (collect js1) as [ps [x|]]; [done|].
    by destruct (collect js2).
  - done.
Qed.

Lemma alter_snoc_nil {A} (w : nat) (l : list (list A)) :
  alter (λ refs, refs ++ []) w l = l.
Proof. apply list_alter_id. intros x. by rewrite app_nil_r. Qed.

Lemma alter_snoc_seq (w a n : nat) (l : list (list nat)) :
  alter (λ refs, refs ++ seq (S a) n) w (alter (λ refs, refs ++ [a]) w l)
  = alter (λ refs, refs ++ seq a (S n)) w l.
Proof.
  rewrite list_alter_alter_eq. apply list_alter_ext; [|done].
  intros x _. simpl. by rewrite -app_assoc.
Qed.

Lemma alter_snoc_app (w a n m : nat) (l : list (list nat)) :
  alter (λ refs, refs ++ seq (a + n) m) w (alter (λ refs, refs ++ seq a n) w l)
  = alter (λ refs, refs ++ seq a (n + m)) w l.
Proof.
  rewrite list_alter_alter_eq. apply list_alter_ext; [|done].
  intros x _. simpl. by rewrite -app_assoc seq_app.
Qed.

Section Loops.
Variables (context : nat) (mapping : list factory) (r : reader) (w : nat).
Variable ctx : dict.

(** The inner loop for student [s], from page [i] on, over the input
    pages [tpls] that remain; [d] is the context when the loop starts. *)
Lemma inner_loop s tpls : ∀ i st d ps f,
  (∀ j tpl, tpls !! j = Some tpl →
     ∃ l, flattenedPages r !! (i + j)%nat = Some l ∧ page_store st !! l = Some tpl) →
  dict_store st !! context = Some d →
  ctx_frame ctx d →
  d !! "student" = Some s →
  collect (page_jobs mapping ctx s i tpls) = (ps, f) →
  ∃ c,
    for_ (seq i (length tpls)) (merge_page context mapping r w) st =
      (outcome tt f,
       {| dict_store := <[context := c]> (dict_store st);
          page_store := page_store st ++ ps ++ leftover f;
          writer_store :=
            alter (λ refs, refs ++ seq (length (page_store st)) (length ps))
              w (writer_store st) |})
    ∧ ctx_frame ctx c
    ∧ c !! "student" = Some s
    ∧ (f = None → tpls ≠ [] →
       c !! "page_num" = Some (VInt (Z.of_nat (i + length tpls - 1))))
    ∧ (tpls = [] → c = d)
    ∧ (is_Some f → c = ctx_at ctx s (i + length ps)).
Proof.
  induction tpls as [|tpl rest IH]; intros i st d ps f Hin Hd Hfr Hst Hc.
  - simpl in Hc. injection Hc as <- <-. exists d.
    split_and!; try done.
    destruct st as [ds store ws]. simpl in *.
    by rewrite app_nil_r alter_snoc_nil list_insert_id.
  - destruct (Hin 0%nat tpl eq_refl) as (l & Hl & Htpl).
    rewrite Nat.add_0_r in Hl.
    pose proof (lookup_lt_Some _ _ _ Hd) as Hlt.
    simpl. unfold mbind at 1, M_bind at 1.
    rewrite (merge_page_step _ _ _ _ _ _ _ _ _ Hd Hl Htpl). simpl.
    rewrite (ctx_at_frame ctx _ s i Hfr Hst).
    simpl in Hc.
    destruct (personalize mapping (ctx_at ctx s i) tpl i) as [p|e].
    + destruct (collect (page_jobs mapping ctx s (S i) rest)) as [ps' f'] eqn:Hrest.
      injection Hc as <- <-.
      set (st1 := {| dict_store := <[context := ctx_at ctx s i]> (dict_store st);
                     page_store := page_store st ++ [p];
                     writer_store :=
                       alter (λ ps, ps ++ [length (page_store st)]) w
                         (writer_store st) |}).
      destruct (IH (S i) st1 (ctx_at ctx s i) ps' f')
        as (c & Hrun & Hfr' & Hst' & Hpn & Hnil & Hfail).
      * intros j tpl' Hj. destruct (Hin (S j) tpl' Hj) as (l' & Hl' & Htpl').
        exists l'. split; [by replace (S i + j)%nat with (i + S j)%nat by lia|].
        simpl. by apply lookup_app_l_Some.
      * simpl. by apply list_lookup_insert_eq.
      * intros k Hk1 Hk2. by rewrite ctx_at_other.
      * apply ctx_at_student.
      * done.
      * exists c. split_and!; try done.
        -- rewrite Hrun. f_equal. subst st1. simpl. f_equal.
           ++ by rewrite list_insert_insert_eq.
           ++ by rewrite -app_assoc.
           ++ rewrite length_app. simpl. rewrite Nat.add_1_r.
              apply alter_snoc_seq.
        -- intros Hf _. destruct rest as [|tpl' rest'].
           ++ rewrite (Hnil eq_refl).
              rewrite ctx_at_page_num. do 3 f_equal. simpl. lia.
           ++ rewrite (Hpn Hf); [|done]. do 3 f_equal. simpl. lia.
        -- intros Hf. rewrite (Hfail Hf). f_equal. simpl. lia.
    + injection Hc as <- <-. exists (ctx_at ctx s i).
      split_and!; try done.
      * simpl. by rewrite alter_snoc_nil.
      * intros k Hk1 Hk2. by rewrite ctx_at_other.
      * apply ctx_at_student.
      * intros _. simpl. by rewrite Nat.add_0_r.
Qed.

(** The outer loop over [students]; [d] is the context when the loop
    starts. *)
Lemma outer_loop tpls students : ∀ st d ps f,
  reader_ok st r tpls →
  dict_store st !! context = Some d →
  ctx_frame ctx d →
  collect (all_jobs mapping ctx tpls students) = (ps, f) →
  ∃ c,
    for_ students (merge_student context mapping r w) st =
      (outcome tt f,
       {| dict_store := <[context := c]> (dict_store st);
          page_store := page_store st ++ ps ++ leftover f;
          writer_store :=
            alter (λ refs, refs ++ seq (length (page_store st)) (length ps))
              w (writer_store st) |})
    ∧ ctx_frame ctx c
    ∧ (f = None → ∀ s, last students = Some s →
       c !! "student" = Some s
       ∧ (tpls ≠ [] →
          c !! "page_num" = Some (VInt (Z.of_nat (length tpls - 1)))))
    ∧ (students = [] → c = d)
    ∧ (is_Some f → ∃ s i student,
         students !! s = Some student ∧ i < length tpls
         ∧ length ps = (s * length tpls + i)%nat ∧ c = ctx_at ctx student i).
Proof.
  induction students as [|s rest IH]; intros st d ps f Hok Hd Hfr Hc.
  - simpl in Hc. injection Hc as <- <-. exists d.
    split_and!; try done.
    destruct st as [ds store ws]. simpl in *.
    by rewrite app_nil_r alter_snoc_nil list_insert_id.
  - unfold all_jobs in Hc. rewrite bind_cons collect_app in Hc.
    pose proof (lookup_lt_Some _ _ _ Hd) as Hlt.
    destruct (collect (page_jobs mapping ctx s 0 tpls)) as [ps1 f1] eqn:Hin.
    set (st1 := {| dict_store := <[context := <["student" := s]> d]> (dict_store st);
                   page_store := page_store st;
                   writer_store := writer_store st |}).
    destruct (inner_loop s tpls 0 st1 (<["student" := s]> d) ps1 f1)
      as (c1 & Hrun1 & Hfr1 & Hst1 & Hpn1 & _ & Hfail1).
    { intros j tpl Hj. by apply (reader_ok_lookup st r tpls). }
    { simpl. by apply list_lookup_insert_eq. }
    { by apply ctx_frame_student. }
    { by rewrite lookup_insert_eq. }
    { done. }
    simpl. unfold mbind at 1, M_bind at 1.
    unfold merge_student at 1, mbind at 1, M_bind at 1, dict_update.
    rewrite Hd. fold st1. unfold range, getNumPages.
    rewrite (reader_ok_length st r tpls Hok) Hrun1.
    destruct f1 as [[tpl e]|].
    + injection Hc as <- <-. exists c1. split_and!; try done.
      * simpl. by rewrite list_insert_insert_eq.
      * intros _. exists 0%nat, (length ps1), s. split_and!; try done.
        -- apply collect_Some in Hin as [_ Hin]. apply lookup_lt_Some in Hin.
           by rewrite page_jobs_length in Hin.
        -- by apply Hfail1.
    + simpl.
      destruct (collect (rest ≫= (λ student, page_jobs mapping ctx student 0 tpls)))
        as [ps2 f2] eqn:Hrest.
      injection Hc as <- <-.
      set (st2 := {| dict_store := <[context := c1]> (dict_store st1);
                     page_store := page_store st1 ++ ps1 ++ [];
                     writer_store :=
                       alter (λ refs, refs ++ seq (length (page_store st1)) (length ps1))
                         w (writer_store st1) |}).
      destruct (IH st2 c1 ps2 f2) as (c & Hrun & Hfr' & Hlast & Hnil & Hfail).
      { by apply reader_ok_app. }
      { simpl. apply list_lookup_insert_eq. by rewrite length_insert. }
      { done. }
      { done. }
      exists c. split_and!; try done.
      * rewrite Hrun. f_equal. subst st2 st1. simpl. f_equal.
        -- by rewrite !list_insert_insert_eq.
        -- by rewrite app_nil_r -!app_assoc.
        -- rewrite app_nil_r !length_app. apply alter_snoc_app.
      * intros Hf s' Hs'. destruct rest as [|s2 rest'].
        -- simpl in Hs'. injection Hs' as <-.
           rewrite (Hnil eq_refl). split; [done|].
           intros Hne. rewrite (Hpn1 eq_refl Hne). done.
        -- apply (Hlast Hf). by rewrite last_cons_cons in Hs'.
      * intros Hf. destruct (Hfail Hf) as (s' & i & student & Hs' & Hi & Hlen & ->).
        exists (S s'), i, student. split_and!; try done.
        apply collect_None, Forall2_length in Hin.
        rewrite page_jobs_length in Hin.
        rewrite length_app Hlen -Hin. simpl. lia.
Qed.
End Loops.

(** [merge] runs the jobs in order until one fails.  The state it leaves
    has the context changed in place, the produced pages appended to the
    page store, then the copy of a failed job; the new writer refers to
    the produced pages. *)
Lemma merge_run context students mapping r tpls st ctx ps f :
  dict_store st !! context = Some ctx →
  reader_ok st r tpls →
  collect (all_jobs mapping ctx tpls students) = (ps, f) →
  ∃ c,
    merge context students mapping r st =
      (outcome (length (writer_store st)) f,
       {| dict_store := <[context := c]> (dict_store st);
          page_store := page_store st ++ ps ++ leftover f;
          writer_store :=
            writer_store st ++ [seq (length (page_store st)) (length ps)] |})
    ∧ ctx_frame ctx c
    ∧ (f = None → ∀ s, last students = Some s →
       c !! "student" = Some s
       ∧ (tpls ≠ [] → c !! "page_num" = Some (VInt (Z.of_nat (length tpls - 1)))))
    ∧ (students = [] → c = ctx)
    ∧ (is_Some f → ∃ s i student,
         students !! s = Some student ∧ i < length tpls
         ∧ length ps = (s * length tpls + i)%nat
         ∧ c = ctx_at ctx student i).
Proof.
  intros Hctx Hok Hc.
  set (st1 := {| dict_store := dict_store st;
                 page_store := page_store st;
                 writer_store := writer_store st ++ [[]] |}).
  destruct (outer_loop context mapping r (length (writer_store st)) ctx
              tpls students st1 ctx ps f) as (c & Hrun & Hfr & Hlast & Hnil & Hfail);
    [done | done | apply ctx_frame_refl | done |].
  exists c. split_and!; try done.
  unfold merge, mbind, M_bind, PdfFileWriter. fold st1. simpl.
  rewrite Hrun. subst st1. simpl. rewrite alter_at_end. simpl.
  by destruct f as [[tpl e]|].
Qed.

(** ** What the writer holds after a run *)

Lemma omap_lookup_seq {A} (b a c : list A) :
  omap (λ l, (a ++ b ++ c) !! l) (seq (length a) (length b)) = b.
Proof.
  revert a. induction b as [|x b IH]; intros a; [done|].
  simpl. rewrite list_lookup_middle; [|done]. f_equal.
  specialize (IH (a ++ [x])). rewrite length_app Nat.add_1_r -app_assoc in IH.
  exact IH.
Qed.

Lemma writer_pages_run ds store ps lo ws :
  writer_pages
    {| dict_store := ds; page_store := store ++ ps ++ lo;
       writer_store := ws ++ [seq (length store) (length ps)] |}
    (length ws) = ps.
Proof.
  unfold writer_pages. simpl.
  rewrite list_lookup_middle; [|done]. apply omap_lookup_seq.
Qed.

Lemma writer_pages_run_nil ds store ps ws :
  writer_pages
    {| dict_store := ds; page_store := store ++ ps;
       writer_store := ws ++ [seq (length store) (length ps)] |}
    (length ws) = ps.
Proof.
  pose proof (writer_pages_run ds store ps [] ws) as H.
  by rewrite app_nil_r in H.
Qed.

(** The caller's view of [merge]: the pages produced when every job
    succeeds, the exception of the first failing job otherwise. *)
Lemma merge_output context students mapping r tpls st ctx :
  dict_store st !! context = Some ctx →
  reader_ok st r tpls →
  output (merge context students mapping r st) =
    match collect (all_jobs mapping ctx tpls students) with
    | (ps, None) => inr ps
    | (_, Some (_, e)) => inl e
    end.
Proof.
  intros Hctx Hok.
  destruct (collect (all_jobs mapping ctx tpls students)) as [ps f] eqn:Hc.
  destruct (merge_run context students mapping r tpls st ctx ps f Hctx Hok Hc)
    as (c & Hrun & _).
  rewrite Hrun. unfold output. destruct f as [[tpl e]|]; simpl; [done|].
  by rewrite writer_pages_run.
Qed.

(** ** Mask pages *)

(** The calls of the drawing library in the [render] methods, laid
    open. *)
Ltac unfold_render :=
  unfold TaskPageMask_render, AnswerSheetMask_render, rect, drawString,
    drawRightString, addFromList, Table_drawOn, format, mbind, res_bind in *.

(** [render] draws on the current page only: it never closes a page. *)
Lemma render_keeps_pages self c0 context c :
  render self c0 context = Ok c → _pages c = _pages c0.
Proof.
  destruct self as [| |a|a|fs]; simpl; try done.
  - by intros [= <-].
  - intros H. unfold_render. by repeat (case_match; simplify_eq).
  - intros H. unfold_render. by repeat (case_match; simplify_eq).
Qed.

Lemma get_canvas_fresh self packet :
  _code (get_canvas self packet) = [] ∧ _pages (get_canvas self packet) = [].
Proof. by destruct self. Qed.

(** After [showPage], [save] has no page left to close. *)
Lemma save_showPage c : save (showPage c) = _pages c ++ [_code c].
Proof. done. Qed.

Lemma MaskFactory_get_mask_page_eq self context :
  MaskFactory_get_mask_page self context =
    match render self (get_canvas self BytesIO) context with
    | Ok c => Ok {| contents := _code c |}
    | Raise e => Raise e
    end.
Proof.
  unfold MaskFactory_get_mask_page, mbind, res_bind.
  destruct (render self _ context) as [c|e] eqn:Hr; [|done].
  apply render_keeps_pages in Hr.
  rewrite save_showPage Hr (proj2 (get_canvas_fresh self BytesIO)). done.
Qed.

Lemma get_mask_page_has_render self context :
  has_render self = true →
  get_mask_page self context = MaskFactory_get_mask_page self context.
Proof. by destruct self. Qed.

(** C4 (as amended) — For every mask factory with a [render] method and
    every context, [get_mask_page] renders onto a fresh in-memory canvas
    (no operator drawn, no page closed).  When [render] returns,
    [get_mask_page] returns a standalone one-page PDF page: the saved
    document has exactly one page, closed by the one [showPage] before
    [save], and the page returned is page 0 of that document, holding
    what [render] drew.  When [render] raises, [get_mask_page] raises
    the same exception. *)
Theorem get_mask_page_single_page self context :
  has_render self = true →
  _code (get_canvas self BytesIO) = []
  ∧ _pages (get_canvas self BytesIO) = []
  ∧ match render self (get_canvas self BytesIO) context with
    | Ok c =>
        length (save (showPage c)) = 1%nat
        ∧ ∃ page, PdfFileReader (save (showPage c)) !! 0%nat = Some page
                  ∧ contents page = _code c
                  ∧ get_mask_page self context = Ok page
    | Raise e => get_mask_page self context = Raise e
    end.
Proof.
  intros Hr.
  destruct (get_canvas_fresh self BytesIO) as [Hcode Hpages].
  split_and!; try done.
  rewrite get_mask_page_has_render // MaskFactory_get_mask_page_eq.
  destruct (render self _ context) as [c|e] eqn:Hc; [|done].
  pose proof (render_keeps_pages _ _ _ _ Hc) as Hp. rewrite Hpages in Hp.
  rewrite save_showPage Hp. split; [done|].
  by exists {| contents := _code c |}.
Qed.

Lemma get_mask_page_single_page_witness :
  ∃ page, get_mask_page simple_header_mask sample_context = Ok page
          ∧ length (contents page) = 3%nat.
Proof.
  destruct (get_mask_page_single_page simple_header_mask sample_context eq_refl)
    as (_ & _ & H).
  vm_compute in H. destruct H as (_ & page & Hpage & _ & Hget).
  exists page. split; [exact Hget|].
  injection Hpage as <-. reflexivity.
Defined.

(** C4 (as stated) fails: under the script's own context, before
    [merge] has put a student in it, [render] raises and so does
    [get_mask_page]. *)
Lemma get_mask_page_raises_without_student :
  has_render simple_header_mask = true
  ∧ get_mask_page simple_header_mask context0 = Raise (KeyError "student").
Proof. split; vm_compute; reflexivity. Qed.

(** ** Box placement *)








(** For the two masks of the configuration the derived coordinates are
    exact in binary64: the right edge of either box is the right margin
    away from the page's right edge, its top edge the top margin away
    from the page's top edge. *)
Lemma configured_boxes_hang_from_margins :
  Forall (λ f,
    match f with
    | TaskPageMask a | AnswerSheetMask a =>
        left_margin a + box_width a = A4.1 - right_margin a
        ∧ bottom_margin a + box_height a = A4.2 - top_margin a
    | _ => False
    end) [task_mask; simple_header_mask].
Proof. repeat constructor; vm_compute; reflexivity. Qed.

(** ** What the masks show *)

Lemma int_str_limit_eq : int_str_limit = (10 ^ int_max_str_digits)%Z.
Proof. vm_compute. reflexivity. Qed.





(** ** Several masks on one page *)

Lemma merge_masks_Ok get fs : ∀ page ps,
  Forall2 (λ f p, get f = Ok p) fs ps →
  merge_masks get fs page = Ok (foldl PageObject_mergePage page ps).
Proof.
  induction fs as [|f fs IH]; intros page ps H; inversion H as [|? p ? ps' Hf Hfs]; subst.
  - done.
  - simpl. rewrite Hf. simpl. by apply IH.
Qed.

Lemma merge_masks_Raise get fs : ∀ page e,
  merge_masks get fs page = Raise e → ∃ f, f ∈ fs ∧ get f = Raise e.
Proof.
  induction fs as [|f fs IH]; intros page e H; simpl in H; [done|].
  destruct (get f) as [mask|e'] eqn:Hf; simpl in H.
  - destruct (IH _ _ H) as (f' & Hin & Hf'). exists f'. split; [by right | done].
  - injection H as ->. exists f. split; [by left | done].
Qed.

(** C9 (as amended) — For the empty list of factories
    [MultipleMaskFactory.get_mask_page] fails with the [IndexError] of
    [factories[0]].  For every non-empty list whose factories all return
    a mask page, it returns the first factory's mask page with the mask
    pages of the remaining factories merged onto it in list order.  It
    raises on a non-empty list only when one of the listed factories
    raises, and then with that factory's exception: the indexing error
    itself is unreachable. *)
Theorem MultipleMaskFactory_get_mask_page (context : dict) :
  get_mask_page (MultipleMaskFactory []) context = Raise IndexError
  ∧ (∀ f0 rest p0 ps,
       get_mask_page f0 context = Ok p0 →
       Forall2 (λ f p, get_mask_page f context = Ok p) rest ps →
       get_mask_page (MultipleMaskFactory (f0 :: rest)) context
       = Ok (foldl PageObject_mergePage p0 ps))
  ∧ (∀ f0 rest e,
       get_mask_page (MultipleMaskFactory (f0 :: rest)) context = Raise e →
       ∃ f, f ∈ f0 :: rest ∧ get_mask_page f context = Raise e).
Proof.
  split_and!.
  - done.
  - intros f0 rest p0 ps H0 Hrest. simpl. rewrite H0. simpl.
    by apply merge_masks_Ok.
  - intros f0 rest e H. simpl in H.
    destruct (get_mask_page f0 context) as [p0|e0] eqn:H0; simpl in H.
    + apply merge_masks_Raise in H as (f & Hin & Hf).
      exists f. split; [by right | done].
    + injection H as ->. exists f0. split; [by left | done].
Qed.

Lemma MultipleMaskFactory_get_mask_page_witness :
  ∃ p0 p1,
    get_mask_page task_mask sample_context = Ok p0
    ∧ get_mask_page simple_header_mask sample_context = Ok p1
    ∧ get_mask_page (MultipleMaskFactory [task_mask; simple_header_mask])
        sample_context
      = Ok {| contents := contents p0 ++ contents p1 |}.
Proof.
  eexists _, _. split; [vm_compute; reflexivity|].
  split; [vm_compute; reflexivity|].
  apply (proj1 (proj2 (MultipleMaskFactory_get_mask_page sample_context))
           task_mask [simple_header_mask] _ [_]).
  - vm_compute; reflexivity.
  - repeat constructor.
Defined.

(** C9 (as stated) fails: a non-empty list does not make the call
    return.  Under the script's own context, before [merge] has put a
    student in it, the second entry of [mapping] raises. *)
Lemma MultipleMaskFactory_nonempty_raises :
  mapping !! 1%nat = Some (MultipleMaskFactory [task_mask; simple_header_mask])
  ∧ get_mask_page (MultipleMaskFactory [task_mask; simple_header_mask]) context0
    = Raise (KeyError "student").
Proof. split; vm_compute; reflexivity. Qed.

(** ** The output of [merge] *)

Lemma page_jobs_elem mapping ctx s tpls i job :
  job ∈ page_jobs mapping ctx s i tpls →
  ∃ j tpl, tpls !! j = Some tpl
           ∧ job = (tpl, personalize mapping (ctx_at ctx s (i + j)) tpl (i + j)%nat).
Proof.
  intros Hin. apply list_elem_of_lookup in Hin as [j Hj].
  pose proof (lookup_lt_Some _ _ _ Hj) as Hlt. rewrite page_jobs_length in Hlt.
  destruct (lookup_lt_is_Some_2 tpls j Hlt) as [tpl Htpl].
  rewrite (page_jobs_lookup _ _ _ _ i j tpl Htpl) in Hj.
  injection Hj as <-. by exists j, tpl.
Qed.

Lemma all_jobs_elem mapping ctx tpls students job :
  job ∈ all_jobs mapping ctx tpls students →
  ∃ student i tpl, student ∈ students ∧ tpls !! i = Some tpl
                   ∧ job = (tpl, personalize mapping (ctx_at ctx student i) tpl i).
Proof.
  unfold all_jobs. intros Hin.
  apply list_elem_of_bind in Hin as (student & Hjob & Hs).
  apply page_jobs_elem in Hjob as (i & tpl & Htpl & ->).
  by exists student, i, tpl.
Qed.

(** The run of [merge] when it returns. *)
Lemma merge_returns context students mapping r tpls st ctx output_pdf st' :
  dict_store st !! context = Some ctx →
  reader_ok st r tpls →
  merge context students mapping r st = (Ok output_pdf, st') →
  ∃ ps c,
    collect (all_jobs mapping ctx tpls students) = (ps, None)
    ∧ output_pdf = length (writer_store st)
    ∧ st' = {| dict_store := <[context := c]> (dict_store st);
               page_store := page_store st ++ ps;
               writer_store :=
                 writer_store st ++ [seq (length (page_store st)) (length ps)] |}
    ∧ ctx_frame ctx c
    ∧ (students = [] → c = ctx)
    ∧ (∀ s, last students = Some s →
         c !! "student" = Some s
         ∧ (tpls ≠ [] → c !! "page_num" = Some (VInt (Z.of_nat (length tpls - 1))))).
Proof.
  intros Hctx Hok Hrun.
  destruct (collect (all_jobs mapping ctx tpls students)) as [ps f] eqn:Hc.
  destruct (merge_run context students mapping r tpls st ctx ps f Hctx Hok Hc)
    as (c & Hrun' & Hfr & Hlast & Hnil & _).
  rewrite Hrun in Hrun'. destruct f as [[tpl e]|]; simpl in Hrun'; [done|].
  injection Hrun' as -> ->. exists ps, c. rewrite app_nil_r.
  split_and!; try done. by apply Hlast.
Qed.

(** C1 (as amended) — For every context, student list, page-to-mask
    mapping and input PDF with [n] pages, [n] not exceeding the mapping
    length, such that the mask factory of every page returns a mask page
    for every student (under the context holding that student and page
    number), [merge] returns a writer containing exactly
    [len(students) * n] pages in student-major, page-minor order: the
    page at position [s * n + i] is input page [i] with the mask of
    mapping entry [i] for student [s] merged onto it. *)
Theorem merge_student_major context students mapping input_pdf tpls st ctx :
  dict_store st !! context = Some ctx →
  reader_ok st input_pdf tpls →
  getNumPages input_pdf ≤ length mapping →
  (∀ student i f,
     student ∈ students → mapping !! i = Some f → i < getNumPages input_pdf →
     is_Ok (get_mask_page f (ctx_at ctx student i)) = true) →
  ∃ output_pdf st',
    merge context students mapping input_pdf st = (Ok output_pdf, st')
    ∧ length (writer_pages st' output_pdf)
      = (length students * getNumPages input_pdf)%nat
    ∧ ∀ s i student tpl,
        students !! s = Some student → tpls !! i = Some tpl →
        ∃ f mask,
          mapping !! i = Some f
          ∧ get_mask_page f (ctx_at ctx student i) = Ok mask
          ∧ writer_pages st' output_pdf !! (s * getNumPages input_pdf + i)%nat
            = Some (PageObject_mergePage tpl mask).
Proof.
  intros Hctx Hok Hn Hmasks.
  pose proof (reader_ok_length _ _ _ Hok) as Hlen. unfold getNumPages in *.
  destruct (collect (all_jobs mapping ctx tpls students)) as [ps fail] eqn:Hc.
  assert (fail = None) as ->.
  { change fail with (ps, fail).2. rewrite -Hc. apply collect_all_Ok.
    apply Forall_forall. intros job Hjob.
    apply all_jobs_elem in Hjob as (student & i & tpl & Hs & Htpl & ->).
    pose proof (lookup_lt_Some _ _ _ Htpl) as Hi.
    destruct (lookup_lt_is_Some_2 mapping i ltac:(lia)) as [f Hf].
    specialize (Hmasks student i f Hs Hf ltac:(lia)).
    simpl. unfold personalize, list_getitem, mbind, res_bind. rewrite Hf.
    by destruct (get_mask_page f _). }
  destruct (merge_run context students mapping input_pdf tpls st ctx ps None
              Hctx Hok Hc) as (c & Hrun & _).
  eexists _, _. split; [exact Hrun|]. rewrite writer_pages_run. split.
  - rewrite Hlen. by eapply produced_length.
  - intros s i student tpl Hs Htpl. rewrite Hlen.
    by eapply produced_lookup.
Qed.

(** C2 — For every student and every input page index [i], the output
    page for that student and index is produced by taking a copy of
    input page [i] (a new page object with the content of the page the
    reader holds), obtaining the mask page from entry [i] of the mapping
    under the shared context, which then holds that student and page
    number, and merging the mask page onto the copy.  This holds of every
    page [merge] adds to its writer, whether it goes on to return the
    writer, then with a page for every student and index, or raises. *)
Theorem merge_page_composition
    context students mapping input_pdf tpls st ctx :
  dict_store st !! context = Some ctx →
  reader_ok st input_pdf tpls →
  let run := merge context students mapping input_pdf st in
  ∃ refs,
    writer_store run.2 !! length (writer_store st) = Some refs
    ∧ (∀ output_pdf, run.1 = Ok output_pdf →
         output_pdf = length (writer_store st)
         ∧ length refs = (length students * getNumPages input_pdf)%nat)
    ∧ ∀ s i student page,
        students !! s = Some student → i < getNumPages input_pdf →
        refs !! (s * getNumPages input_pdf + i)%nat = Some page →
        ∃ src tpl f mask,
          flattenedPages input_pdf !! i = Some src
          ∧ page_store st !! src = Some tpl
          ∧ mapping !! i = Some f
          ∧ get_mask_page f (ctx_at ctx student i) = Ok mask
          ∧ length (page_store st) ≤ page
          ∧ page_store run.2 !! page = Some (PageObject_mergePage tpl mask).
Proof.
  intros Hctx Hok.
  pose proof (reader_ok_length _ _ _ Hok) as Hlen. unfold getNumPages in *.
  destruct (collect (all_jobs mapping ctx tpls students)) as [ps fail] eqn:Hc.
  destruct (merge_run context students mapping input_pdf tpls st ctx ps fail
              Hctx Hok Hc) as (c & Hrun & _).
  simpl. rewrite Hrun. simpl.
  exists (seq (length (page_store st)) (length ps)). split_and!.
  - by rewrite list_lookup_middle.
  - intros output_pdf Hout. destruct fail as [[tpl e]|]; simpl in Hout; [done|].
    injection Hout as <-. split; [done|].
    rewrite length_seq Hlen. by eapply produced_length.
  - intros s i student page Hs Hi Hpage.
    apply lookup_seq in Hpage as [-> Hk]. rewrite Hlen in Hk.
    destruct (lookup_lt_is_Some_2 tpls i ltac:(lia)) as [tpl Htpl].
    destruct (reader_ok_lookup _ _ _ _ _ Hok Htpl) as (src & Hsrc & Hstore).
    destruct (lookup_lt_is_Some_2 ps _ Hk) as [p Hp].
    destruct (collect_lookup _ _ _ _ _ Hc Hp) as [tpl' Hjob].
    rewrite (all_jobs_lookup _ _ _ _ _ _ _ _ Hs Htpl) in Hjob.
    injection Hjob as _ Hres.
    apply personalize_Ok in Hres as (f & mask & Hf & Hm & ->).
    exists src, tpl, f, mask. split_and!; try done.
    + lia.
    + rewrite lookup_app_r; [|lia]. rewrite lookup_app_l; [|lia].
      rewrite -Hp Hlen. f_equal. lia.
Qed.

(** Checks, for concrete students, a concrete mapping and [n] pages,
    that every mask factory returns a page for every student. *)
Tactic Notation "check_masks" integer(n) :=
  let student := fresh "student" in
  let i := fresh "i" in
  let f := fresh "f" in
  let Hs := fresh "Hs" in
  let Hf := fresh "Hf" in
  let Hi := fresh "Hi" in
  intros student i f Hs Hf Hi;
  repeat (apply elem_of_cons in Hs as [->|Hs]);
  [ do n (destruct i as [|i];
          [ injection Hf as <-; vm_compute; reflexivity | ]);
    exfalso; vm_compute in Hi; lia ..
  | by apply elem_of_nil in Hs ].

Lemma merge_student_major_witness :
  ∃ output_pdf st',
    run_script template = (Ok output_pdf, st')
    ∧ length (writer_pages st' output_pdf) = 15%nat.
Proof.
  destruct (merge_student_major 0 students mapping (input_reader template)
              template (initial_state context0 template) context0)
    as (output_pdf & st' & Hrun & Hlen & _).
  - reflexivity.
  - vm_compute. reflexivity.
  - vm_compute. lia.
  - check_masks 5.
  - exists output_pdf, st'. split; [exact Hrun | exact Hlen].
Defined.

(** C1 (as stated) fails: the script's own students and mapping, a
    five-page input, and a context without a teacher.  The page count
    does not exceed the mapping length, yet [merge] returns no writer:
    the task mask of page 1 looks the teacher up. *)
Lemma merge_raises_without_teacher :
  reader_ok (initial_state ∅ template) (input_reader template) template
  ∧ getNumPages (input_reader template) ≤ length mapping
  ∧ output (merge 0 students mapping (input_reader template)
              (initial_state ∅ template))
    = inl (KeyError "teacher").
Proof.
  split_and!.
  - vm_compute. reflexivity.
  - vm_compute. lia.
  - vm_compute. reflexivity.
Qed.

Lemma merge_page_composition_witness :
  ∃ refs page tpl f mask,
    writer_store (run_script template).2 !! 0%nat = Some refs
    ∧ refs !! 11%nat = Some page
    ∧ template !! 1%nat = Some tpl
    ∧ mapping !! 1%nat = Some f
    ∧ get_mask_page f sample_context = Ok mask
    ∧ page_store (run_script template).2 !! page
      = Some (PageObject_mergePage tpl mask).
Proof.
  destruct (merge_page_composition 0 students mapping (input_reader template)
              template (initial_state context0 template) context0)
    as (refs & Hrefs & _ & Hpages).
  - reflexivity.
  - vm_compute. reflexivity.
  - destruct (Hpages 2%nat 1%nat (student "Jakub" "Janoszek" 19757) 16%nat)
      as (src & tpl & f & mask & Hsrc & Htpl & Hf & Hmask & _ & Hpage).
    + reflexivity.
    + vm_compute. lia.
    + vm_compute in Hrefs. injection Hrefs as <-. reflexivity.
    + exists refs, 16%nat, tpl, f, mask. split_and!.
      * exact Hrefs.
      * vm_compute in Hrefs. injection Hrefs as <-. reflexivity.
      * vm_compute in Hsrc. injection Hsrc as <-. exact Htpl.
      * exact Hf.
      * exact Hmask.
      * exact Hpage.
Defined.

(** ** An input with more pages than the mapping has entries *)

Lemma page_jobs_app mapping ctx s tpls1 tpls2 : ∀ i,
  page_jobs mapping ctx s i (tpls1 ++ tpls2)
  = page_jobs mapping ctx s i tpls1
    ++ page_jobs mapping ctx s (i + length tpls1) tpls2.
Proof.
  induction tpls1 as [|tpl tpls1 IH]; intros i; simpl.
  - by rewrite Nat.add_0_r.
  - rewrite IH. by replace (S i + length tpls1)%nat with (i + S (length tpls1))%nat by lia.
Qed.

Lemma Forall_Ok_Forall2 (jobs : list (PageObject * res PageObject)) :
  Forall (λ job, is_Ok job.2 = true) jobs →
  ∃ ps, Forall2 (λ job p, job.2 = Ok p) jobs ps.
Proof.
  induction 1 as [|[tpl [p|e]] jobs Hx _ [ps IH]]; simpl in *.
  - exists []. constructor.
  - exists (p :: ps). by constructor.
  - done.
Qed.

(** The jobs of the first student when the mapping is too short: the
    pages the mapping covers, then the failed lookup. *)
Lemma jobs_mapping_too_short mapping ctx tpls student0 rest :
  length mapping < length tpls →
  (∀ i f, mapping !! i = Some f →
     is_Ok (get_mask_page f (ctx_at ctx student0 i)) = true) →
  ∃ ps tpl,
    collect (all_jobs mapping ctx tpls (student0 :: rest))
    = (ps, Some (tpl, IndexError))
    ∧ Forall2 (λ job p, job.2 = Ok p)
        (page_jobs mapping ctx student0 0 (take (length mapping) tpls)) ps.
Proof.
  intros Hlt Hmasks.
  destruct (lookup_lt_is_Some_2 tpls (length mapping) Hlt) as [tplm Htplm].
  destruct (Forall_Ok_Forall2
              (page_jobs mapping ctx student0 0 (take (length mapping) tpls)))
    as [ps Hps].
  { apply Forall_forall. intros job Hjob.
    apply page_jobs_elem in Hjob as (j & tpl & Hj & ->). simpl.
    pose proof (lookup_lt_Some _ _ _ Hj) as Hjlt.
    rewrite length_take_le in Hjlt; [|lia].
    destruct (lookup_lt_is_Some_2 mapping j Hjlt) as [f Hf].
    specialize (Hmasks j f Hf).
    unfold personalize, list_getitem, mbind, res_bind. rewrite Hf.
    by destruct (get_mask_page f _). }
  exists ps, tplm. split; [|done].
  unfold all_jobs. rewrite bind_cons.
  rewrite -{1}(take_drop_middle tpls (length mapping) tplm Htplm).
  rewrite page_jobs_app. simpl.
  unfold personalize, list_getitem.
  rewrite (lookup_ge_None_2 mapping); [|rewrite length_take_le; lia].
  simpl. rewrite -app_assoc. simpl.
  by apply collect_first_failure.
Qed.

(** C3 (as amended) — [merge] does not validate the page count of the
    input against the mapping length.  For every non-empty student list
    and every input PDF with more pages than the mapping has entries,
    [merge] returns no writer: it raises, and the exception reaches the
    caller.  When moreover the factories of the mapping return a mask
    page for the first student, the exception is the [IndexError] of
    [mapping[page_num]] at the first page index past the mapping, for
    the first student, and the writer then holds the pages added before:
    one per mapping entry. *)
Theorem merge_mapping_too_short
    context student0 rest mapping input_pdf tpls st ctx :
  dict_store st !! context = Some ctx →
  reader_ok st input_pdf tpls →
  length mapping < getNumPages input_pdf →
  (∃ e st',
     merge context (student0 :: rest) mapping input_pdf st = (Raise e, st'))
  ∧ ((∀ i f, mapping !! i = Some f →
        is_Ok (get_mask_page f (ctx_at ctx student0 i)) = true) →
     ∃ st',
       merge context (student0 :: rest) mapping input_pdf st
       = (Raise IndexError, st')
       ∧ dict_store st' !! context = Some (ctx_at ctx student0 (length mapping))
       ∧ length (writer_pages st' (length (writer_store st))) = length mapping
       ∧ ∀ i tpl,
           i < length mapping → tpls !! i = Some tpl →
           ∃ f mask,
             mapping !! i = Some f
             ∧ get_mask_page f (ctx_at ctx student0 i) = Ok mask
             ∧ writer_pages st' (length (writer_store st)) !! i
               = Some (PageObject_mergePage tpl mask)).
Proof.
  intros Hctx Hok Hlt.
  pose proof (reader_ok_length _ _ _ Hok) as Hlen. unfold getNumPages in *.
  rewrite Hlen in Hlt. split.
  - destruct (collect (all_jobs mapping ctx tpls (student0 :: rest)))
      as [ps fail] eqn:Hc.
    destruct (merge_run context _ mapping input_pdf tpls st ctx ps fail Hctx Hok Hc)
      as (c & Hrun & _).
    destruct fail as [[tpl e]|].
    + eexists e, _. exact Hrun.
    + exfalso.
      destruct (lookup_lt_is_Some_2 tpls (length mapping) Hlt) as [tplm Htplm].
      destruct (produced_lookup _ _ _ _ _ 0%nat _ student0 _ Hc eq_refl Htplm)
        as (f & mask & Hf & _).
      by rewrite lookup_ge_None_2 in Hf.
  - intros Hmasks.
    destruct (jobs_mapping_too_short mapping ctx tpls student0 rest
                Hlt Hmasks) as (ps & tplm & Hc & Hps).
    destruct (merge_run context _ mapping input_pdf tpls st ctx ps _ Hctx Hok Hc)
      as (c & Hrun & _ & _ & _ & Hfail).
    pose proof (Forall2_length _ _ _ Hps) as Hpslen.
    rewrite page_jobs_length length_take_le in Hpslen; [|lia].
    eexists. split; [exact Hrun|]. simpl. rewrite writer_pages_run.
    split_and!.
    + rewrite list_lookup_insert_eq; [|by eapply lookup_lt_Some].
      destruct Hfail as (s & i & student' & Hs & Hi & Hl & ->); [by eexists|].
      destruct s as [|s]; [|exfalso; simpl in Hl; lia].
      simpl in Hs, Hl. injection Hs as <-. do 2 f_equal. lia.
    + done.
    + intros i tpl Hi Htpl.
      assert (take (length mapping) tpls !! i = Some tpl) as Htake.
      { by rewrite lookup_take_lt. }
      pose proof (page_jobs_lookup mapping ctx student0 _ 0 i tpl Htake) as Hjob.
      destruct (Forall2_lookup_l _ _ _ _ _ Hps Hjob) as (p & Hp & Hres).
      simpl in Hres. apply personalize_Ok in Hres as (f & mask & Hf & Hm & ->).
      by exists f, mask.
Qed.

Lemma merge_mapping_too_short_witness :
  ∃ st' c,
    run_script long_template = (Raise IndexError, st')
    ∧ dict_store st' !! 0%nat = Some c
    ∧ c !! "page_num" = Some (VInt 5)
    ∧ length (writer_pages st' 0%nat) = 5%nat.
Proof.
  destruct (merge_mapping_too_short 0
              (student "Jonathan" "Stoppani" 123455)
              [student "Vanessa" "Tay" 98635; student "Jakub" "Janoszek" 19757]
              mapping (input_reader long_template) long_template
              (initial_state context0 long_template) context0) as [_ H].
  - reflexivity.
  - vm_compute. reflexivity.
  - vm_compute. lia.
  - destruct H as (st' & Hrun & Hctx & Hlen & _).
    + intros i f Hf.
      do 5 (destruct i as [|i]; [injection Hf as <-; vm_compute; reflexivity|]).
      vm_compute in Hf. discriminate Hf.
    + exists st', (ctx_at context0 (student "Jonathan" "Stoppani" 123455) 5).
      split_and!.
      * exact Hrun.
      * exact Hctx.
      * apply ctx_at_page_num.
      * exact Hlen.
Defined.

(** C3 (as stated) fails on a six-page input for the five-entry mapping
    of the script.  Without students the loops never reach the mapping,
    and [merge] returns an empty writer.  With the script's students and
    a context without a teacher, the exception that reaches the caller
    is the [KeyError] of the task mask on page 1, raised before any page
    index past the mapping is reached. *)
Lemma merge_mapping_too_short_other_outcomes :
  length mapping < getNumPages (input_reader long_template)
  ∧ output (merge 0 [] mapping (input_reader long_template)
              (initial_state context0 long_template))
    = inr []
  ∧ output (merge 0 students mapping (input_reader long_template)
              (initial_state ∅ long_template))
    = inl (KeyError "teacher").
Proof.
  split_and!.
  - vm_compute. lia.
  - vm_compute. reflexivity.
  - vm_compute. reflexivity.
Qed.

(** ** The input document is left alone *)

(** C5 — [merge] does not modify the pages of the input reader.  Every
    page object that was in the store before the call, the input pages
    among them, has the same content after it, whether [merge] returns or
    raises, so every student's copies are made from the unchanged input
    pages; the pages of the output writer are new objects, none of them
    a page of the reader, and only these are merged upon. *)
Theorem merge_keeps_input_pages context students mapping input_pdf tpls st ctx :
  dict_store st !! context = Some ctx →
  reader_ok st input_pdf tpls →
  let st' := (merge context students mapping input_pdf st).2 in
  reader_ok st' input_pdf tpls
  ∧ (∀ l p, page_store st !! l = Some p → page_store st' !! l = Some p)
  ∧ ∃ refs,
      writer_store st' !! length (writer_store st) = Some refs
      ∧ ∀ l, l ∈ refs →
          length (page_store st) ≤ l ∧ l ∉ flattenedPages input_pdf.
Proof.
  intros Hctx Hok.
  destruct (collect (all_jobs mapping ctx tpls students)) as [ps fail] eqn:Hc.
  destruct (merge_run context students mapping input_pdf tpls st ctx ps fail
              Hctx Hok Hc) as (c & Hrun & _).
  rewrite Hrun. simpl. split_and!.
  - by apply reader_ok_app.
  - intros l p Hl. by apply lookup_app_l_Some.
  - exists (seq (length (page_store st)) (length ps)). split.
    + by rewrite list_lookup_middle.
    + intros l Hl. apply elem_of_seq in Hl as [Hge _]. split; [done|].
      intros Hin. apply list_elem_of_lookup in Hin as [i Hi].
      apply mapM_Some in Hok.
      destruct (Forall2_lookup_l _ _ _ _ _ Hok Hi) as (p & _ & Hp).
      apply lookup_lt_Some in Hp. lia.
Qed.

Lemma merge_keeps_input_pages_witness :
  reader_ok (run_script template).2 (input_reader template) template.
Proof.
  apply (merge_keeps_input_pages 0 students mapping (input_reader template)
           template (initial_state context0 template) context0).
  - reflexivity.
  - vm_compute. reflexivity.
Defined.

(** ** The context after [merge] *)

(** C10 — [merge] mutates the caller's context dictionary in place.
    For every non-empty student list and input PDF with at least one
    page, after [merge] returns the dictionary behind the caller's
    reference holds the last student under ['student'] and the last page
    index under ['page_num'], and is otherwise what it was; no other
    dictionary is touched and none is created.  During the run each mask
    factory sees the current student and page number in this
    dictionary: the page at position [s * n + i] carries the mask made
    under a context that holds student [s] and page number [i]. *)
Theorem merge_updates_context
    context students mapping input_pdf tpls st ctx output_pdf st' last_student :
  dict_store st !! context = Some ctx →
  reader_ok st input_pdf tpls →
  last students = Some last_student →
  0 < getNumPages input_pdf →
  merge context students mapping input_pdf st = (Ok output_pdf, st') →
  dict_store st'
  = <[context := ctx_at ctx last_student (getNumPages input_pdf - 1)]>
      (dict_store st)
  ∧ (∃ c, dict_store st' !! context = Some c
          ∧ c !! "student" = Some last_student
          ∧ c !! "page_num" = Some (VInt (Z.of_nat (getNumPages input_pdf - 1)))
          ∧ ctx_frame ctx c)
  ∧ ∀ s i student tpl,
      students !! s = Some student → tpls !! i = Some tpl →
      ∃ f mask c,
        c !! "student" = Some student
        ∧ c !! "page_num" = Some (VInt (Z.of_nat i))
        ∧ ctx_frame ctx c
        ∧ mapping !! i = Some f
        ∧ get_mask_page f c = Ok mask
        ∧ writer_pages st' output_pdf !! (s * getNumPages input_pdf + i)%nat
          = Some (PageObject_mergePage tpl mask).
Proof.
  intros Hd Hok Hlast Hn Hrun.
  pose proof (reader_ok_length _ _ _ Hok) as Hlen. unfold getNumPages in *.
  rewrite Hlen in Hn. rewrite Hlen.
  pose proof (lookup_lt_Some _ _ _ Hd) as Hlt.
  destruct (merge_returns _ _ _ _ _ _ _ _ _ Hd Hok Hrun)
    as (ps & c & Hc & -> & -> & Hfr & _ & Hctx).
  destruct (Hctx last_student Hlast) as [Hs Hp].
  assert (tpls ≠ []) as Hne by (intros ->; simpl in Hn; lia).
  specialize (Hp Hne).
  assert (c = ctx_at ctx last_student (length tpls - 1)) as Hceq.
  { rewrite -(ctx_at_frame ctx c last_student _ Hfr Hs).
    symmetry. by apply insert_id. }
  simpl. split_and!.
  - by rewrite Hceq.
  - exists c. split_and!; try done. by apply list_lookup_insert_eq.
  - intros s i student tpl Hst Htpl.
    destruct (produced_lookup _ _ _ _ _ _ _ _ _ Hc Hst Htpl)
      as (f & mask & Hf & Hm & Hps).
    exists f, mask, (ctx_at ctx student i).
    rewrite writer_pages_run_nil. split_and!; try done.
    + apply ctx_at_student.
    + apply ctx_at_page_num.
    + intros k Hk1 Hk2. by apply ctx_at_other.
Qed.

Lemma merge_updates_context_witness :
  dict_store (run_script template).2
  = [ctx_at context0 (student "Jakub" "Janoszek" 19757) 4].
Proof.
  apply (merge_updates_context 0 students mapping (input_reader template)
           template (initial_state context0 template) context0 0%nat).
  - reflexivity.
  - vm_compute. reflexivity.
  - reflexivity.
  - vm_compute. lia.
  - vm_compute. reflexivity.
Defined.

(** * Further properties of the code *)

(** ** Induction on factories *)

(** Induction over a factory and the factories listed inside it. *)
Lemma factory_induction (P : factory → Prop) :
  P MaskFactory →
  P EmptyPageMask →
  (∀ a, P (TaskPageMask a)) →
  (∀ a, P (AnswerSheetMask a)) →
  (∀ fs, Forall P fs → P (MultipleMaskFactory fs)) →
  ∀ f, P f.
Proof.
  intros Hbase Hempty Htask Hanswer Hmultiple.
  fix IH 1. intros [| |a|a|fs].
  - exact Hbase.
  - exact Hempty.
  - apply Htask.
  - apply Hanswer.
  - apply Hmultiple.
    induction fs as [|f fs IHfs]; constructor; [apply IH | exact IHfs].
Qed.

Lemma merge_masks_ext get1 get2 fs : ∀ page,
  Forall (λ f, get1 f = get2 f) fs →
  merge_masks get1 fs page = merge_masks get2 fs page.
Proof.
  induction fs as [|f fs IH]; intros page H; [done|].
  apply Forall_cons in H as [Hf Hfs]. simpl. rewrite Hf.
  destruct (get2 f) as [mask|e]; simpl; [by apply IH | done].
Qed.

(** ** What [render] does to the canvas *)

(** X1 — [render] only draws: whenever a [render] method returns, the
    pages closed so far, the page size, the stroke colour, the line
    width and the font of the canvas are what they were, and the page
    being drawn has its earlier operators, in order, followed by the new
    ones.  No [render] method closes a page or removes what was drawn
    before. *)
Theorem render_only_draws self c0 context c :
  render self c0 context = Ok c →
  _pages c = _pages c0
  ∧ _pagesize c = _pagesize c0
  ∧ _strokeColor c = _strokeColor c0
  ∧ _lineWidth c = _lineWidth c0
  ∧ _font c = _font c0
  ∧ _code c0 `prefix_of` _code c.
Proof.
  destruct self as [| |a|a|fs]; simpl; try done.
  - intros [= <-]. by split_and!.
  - intros H. unfold_render.
    repeat (case_match; simplify_eq); simpl;
      (split_and!; try done; rewrite -?app_assoc; by apply prefix_app_r).
  - intros H. unfold_render.
    repeat (case_match; simplify_eq); simpl;
      (split_and!; try done; rewrite -?app_assoc; by apply prefix_app_r).
Qed.

Lemma render_only_draws_witness :
  ∃ c, render simple_header_mask
         (emit (get_canvas simple_header_mask BytesIO) (Raw "draft"))
         sample_context = Ok c
       ∧ _pages c = []
       ∧ _code (emit (get_canvas simple_header_mask BytesIO) (Raw "draft")) `prefix_of` _code c.
Proof.
  eexists. split; [vm_compute; reflexivity|].
  destruct (render_only_draws simple_header_mask
              (emit (get_canvas simple_header_mask BytesIO) (Raw "draft"))
              sample_context _ eq_refl) as (Hpages & _ & _ & _ & _ & Hcode).
  split; [exact Hpages | exact Hcode].
Defined.

(** ** What a mask depends on *)

Lemma render_agree self c0 c1 c2 :
  (∀ k, k ∈ mask_keys → c1 !! k = c2 !! k) →
  render self c0 c1 = render self c0 c2.
Proof.
  intros H.
  assert (c1 !! "student" = c2 !! "student") as Hs
    by (apply H; unfold mask_keys; set_solver).
  assert (c1 !! "teacher" = c2 !! "teacher") as Ht
    by (apply H; unfold mask_keys; set_solver).
  assert (c1 !! "school" = c2 !! "school") as Hsc
    by (apply H; unfold mask_keys; set_solver).
  assert (c1 !! "page_num" = c2 !! "page_num") as Hp
    by (apply H; unfold mask_keys; set_solver).
  destruct self as [| |a|a|fs]; simpl; try done.
  - unfold TaskPageMask_render, dict_getitem. by rewrite Hs Ht Hsc.
  - unfold AnswerSheetMask_render, dict_getitem. by rewrite Hs Hp.
Qed.

(** X3 — A mask page depends on the context only through the four keys
    ['student'], ['teacher'], ['school'] and ['page_num']: for every
    factory, also one that lists other factories, two contexts that
    agree on these keys give the same mask page or the same exception.
    Whatever else the caller keeps in the context never shows. *)
Theorem get_mask_page_reads_mask_keys f c1 c2 :
  (∀ k, k ∈ mask_keys → c1 !! k = c2 !! k) →
  get_mask_page f c1 = get_mask_page f c2.
Proof.
  intros H. induction f as [| |a|a|fs IH] using factory_induction.
  - unfold get_mask_page, MaskFactory_get_mask_page. by rewrite (render_agree _ _ c1 c2).
  - unfold get_mask_page, MaskFactory_get_mask_page. by rewrite (render_agree _ _ c1 c2).
  - unfold get_mask_page, MaskFactory_get_mask_page. by rewrite (render_agree _ _ c1 c2).
  - unfold get_mask_page, MaskFactory_get_mask_page. by rewrite (render_agree _ _ c1 c2).
  - destruct fs as [|f0 rest]; [done|].
    apply Forall_cons in IH as [H0 Hrest]. simpl. rewrite H0.
    destruct (get_mask_page f0 c2) as [page|e]; simpl; [|done].
    by apply merge_masks_ext.
Qed.

Lemma get_mask_page_reads_mask_keys_witness :
  get_mask_page (MultipleMaskFactory [task_mask; simple_header_mask])
    (<["class" := VStr "5b"]> sample_context)
  = get_mask_page (MultipleMaskFactory [task_mask; simple_header_mask])
      sample_context.
Proof.
  apply (get_mask_page_reads_mask_keys
           (MultipleMaskFactory [task_mask; simple_header_mask])
           (<["class" := VStr "5b"]> sample_context) sample_context).
  intros k Hk. unfold mask_keys in Hk.
  repeat (apply elem_of_cons in Hk as [->|Hk]); [reflexivity .. |].
  by apply elem_of_nil in Hk.
Defined.

(** ** Which exceptions a mask factory raises *)

Lemma contains_empty_lift f fs :
  f ∈ fs → contains_empty f = true →
  contains_empty (MultipleMaskFactory fs) = true.
Proof.
  intros Hin Hf. destruct fs as [|f0 rest]; [done|].
  change (existsb contains_empty (f0 :: rest) = true).
  apply existsb_exists. exists f. split; [|done].
  by apply list_elem_of_In.
Qed.

Lemma contains_base_lift f fs :
  f ∈ fs → contains_base f = true →
  contains_base (MultipleMaskFactory fs) = true.
Proof.
  intros Hin Hf.
  change (existsb contains_base fs = true).
  apply existsb_exists. exists f. split; [|done].
  by apply list_elem_of_In.
Qed.

Lemma explains_lift f fs e :
  f ∈ fs → explains f e → explains (MultipleMaskFactory fs) e.
Proof.
  intros Hin. destruct e; try done.
  - by apply contains_empty_lift.
  - by apply contains_base_lift.
Qed.

Lemma getitem_exceptions v k e :
  getitem v k = Raise e → e = KeyError k ∨ e = TypeError.
Proof.
  destruct v as [n|s|d]; simpl; try (intros [= <-]; by right).
  unfold dict_getitem. case_match; [done|]. intros [= <-]. by left.
Qed.

Lemma dict_getitem_exceptions d k e :
  dict_getitem d k = Raise e → e = KeyError k.
Proof. unfold dict_getitem. case_match; [done|]. by intros [= <-]. Qed.

Lemma fp_str_exceptions a e :
  fp_str a = Raise e → e = ValueError ∨ e = OverflowError.
Proof.
  unfold fp_str. induction a as [|x a IH]; [done|].
  destruct (is_nan x); [intros [= <-]; by left|].
  destruct (is_infinity x); [intros [= <-]; by right | done].
Qed.

(** Closes the case of a call that raises: a subscript raises a
    [KeyError] on one of the keys the masks read or a [TypeError], the
    drawing library an [OverflowError] or a [ValueError]. *)
Ltac raised :=
  match goal with
  | H : dict_getitem _ _ = Raise _ |- _ =>
      apply dict_getitem_exceptions in H as ->; simpl; set_solver
  | H : getitem _ _ = Raise _ |- _ =>
      apply getitem_exceptions in H as [-> | ->]; simpl; try done; set_solver
  | H : fp_str _ = Raise _ |- _ =>
      apply fp_str_exceptions in H as [-> | ->]; done
  | _ => done
  end.

Lemma render_exceptions self c0 context e :
  has_render self = true →
  render self c0 context = Raise e → explains self e.
Proof.
  intros Hr. destruct self as [| |a|a|fs]; simpl; try done.
  - by intros [= <-].
  - intros H. unfold_render. repeat (case_match; simplify_eq); raised.
  - intros H. unfold_render. repeat (case_match; simplify_eq); raised.
Qed.

(** X4 — The exceptions of [get_mask_page], for every factory and
    context.  An [IndexError] is raised only by a factory that contains
    a [MultipleMaskFactory] with an empty list, a [NotImplementedError]
    only by one that contains an object of the base class [MaskFactory],
    and a [KeyError] only for one of the seven keys the masks read.  The
    missing [render] method of [MultipleMaskFactory] is never called: no
    [AttributeError] is raised.  Nothing is said on [TypeError], nor on
    the [OverflowError] and [ValueError] of the drawing library. *)
Theorem get_mask_page_exceptions f context e :
  get_mask_page f context = Raise e → explains f e.
Proof.
  revert e. induction f as [| |a|a|fs IH] using factory_induction; intros e.
  - by intros [= <-].
  - done.
  - rewrite get_mask_page_has_render // MaskFactory_get_mask_page_eq.
    destruct (render _ _ context) as [c|e'] eqn:Hr; [done|].
    intros [= <-]. by eapply render_exceptions.
  - rewrite get_mask_page_has_render // MaskFactory_get_mask_page_eq.
    destruct (render _ _ context) as [c|e'] eqn:Hr; [done|].
    intros [= <-]. by eapply render_exceptions.
  - destruct fs as [|f0 rest]; [by intros [= <-]|].
    apply Forall_cons in IH as [IH0 IHrest]. simpl.
    destruct (get_mask_page f0 context) as [page|e0] eqn:H0; simpl.
    + intros H. apply merge_masks_Raise in H as (f & Hin & Hf).
      apply (explains_lift f); [by right|].
      rewrite Forall_forall in IHrest. by apply IHrest.
    + intros [= <-]. apply (explains_lift f0); [by left|]. by apply IH0.
Qed.

Lemma get_mask_page_exceptions_witness :
  explains (MultipleMaskFactory [EmptyPageMask; MultipleMaskFactory []])
    IndexError
  ∧ explains (MultipleMaskFactory [simple_header_mask; MaskFactory])
      NotImplementedError.
Proof.
  split.
  - apply (get_mask_page_exceptions
             (MultipleMaskFactory [EmptyPageMask; MultipleMaskFactory []])
             sample_context IndexError).
    vm_compute. reflexivity.
  - apply (get_mask_page_exceptions
             (MultipleMaskFactory [simple_header_mask; MaskFactory])
             sample_context NotImplementedError).
    vm_compute. reflexivity.
Defined.

(** ** Runs in which every mask is returned *)

(** When every mask the loops ask for is returned, no job fails. *)
Lemma all_jobs_succeed mapping ctx tpls students :
  length tpls ≤ length mapping →
  (∀ student i f,
     student ∈ students → mapping !! i = Some f → i < length tpls →
     is_Ok (get_mask_page f (ctx_at ctx student i)) = true) →
  ∃ ps, collect (all_jobs mapping ctx tpls students) = (ps, None).
Proof.
  intros Hn Hmasks.
  destruct (collect (all_jobs mapping ctx tpls students)) as [ps fail] eqn:Hc.
  exists ps. f_equal. change fail with (ps, fail).2. rewrite -Hc.
  apply collect_all_Ok, Forall_forall. intros job Hjob.
  apply all_jobs_elem in Hjob as (student & i & tpl & Hs & Htpl & ->).
  pose proof (lookup_lt_Some _ _ _ Htpl) as Hi.
  destruct (lookup_lt_is_Some_2 mapping i ltac:(lia)) as [f Hf].
  specialize (Hmasks student i f Hs Hf Hi).
  simpl. unfold personalize, list_getitem, mbind, res_bind. rewrite Hf.
  by destruct (get_mask_page f _).
Qed.

(** ** Nothing to do *)

Lemma outer_loop_no_pages context mapping input_pdf w (students : list value) :
  getNumPages input_pdf = 0%nat →
  ∀ st d,
    dict_store st !! context = Some d →
    for_ students (merge_student context mapping input_pdf w) st
    = (Ok tt,
       {| dict_store :=
            <[context := from_option (λ s, <["student" := s]> d) d (last students)]>
              (dict_store st);
          page_store := page_store st;
          writer_store := writer_store st |}).
Proof.
  intros Hn. induction students as [|s rest IH]; intros st d Hd.
  - simpl. rewrite list_insert_id; [|done]. by destruct st.
  - pose proof (lookup_lt_Some _ _ _ Hd) as Hlt.
    simpl for_. unfold mbind at 1, M_bind at 1.
    unfold merge_student at 1, mbind at 1, M_bind at 1, dict_update.
    rewrite Hd Hn. simpl range. simpl for_. unfold mret at 1, M_ret at 1.
    rewrite (IH _ (<["student" := s]> d)); [|simpl; by apply list_lookup_insert_eq].
    simpl. rewrite list_insert_insert_eq. do 3 f_equal.
    destruct rest as [|s2 rest']; [done|].
    change (last (s :: s2 :: rest')) with (last (s2 :: rest')).
    destruct (last (s2 :: rest')) as [s'|] eqn:Hlast; simpl.
    + by rewrite insert_insert_eq.
    + by apply last_None in Hlast.
Qed.

(** X9 — Nothing to do.  Without students, or on an input without
    pages, [merge] returns a new writer without pages, creates no page
    object and looks at no entry of the mapping (which may hold
    anything, or nothing); without students the context is left as it
    was, and on an input without pages it only gets the last student
    under ['student'], and no ['page_num']. *)
Theorem merge_nothing_to_do context students mapping input_pdf st ctx :
  dict_store st !! context = Some ctx →
  students = [] ∨ getNumPages input_pdf = 0%nat →
  merge context students mapping input_pdf st
  = (Ok (length (writer_store st)),
     {| dict_store :=
          <[context := from_option (λ s, <["student" := s]> ctx) ctx (last students)]>
            (dict_store st);
        page_store := page_store st;
        writer_store := writer_store st ++ [[]] |}).
Proof.
  intros Hctx [->|Hn].
  - simpl. rewrite list_insert_id; [|done]. done.
  - unfold merge, mbind, M_bind, PdfFileWriter.
    by rewrite (outer_loop_no_pages _ _ _ _ _ Hn _ ctx).
Qed.

Lemma merge_nothing_to_do_witness :
  merge 0 students [] (input_reader []) (initial_state context0 [])
  = (Ok 0%nat,
     {| dict_store := [<["student" := student "Jakub" "Janoszek" 19757]> context0];
        page_store := [];
        writer_store := [[]] |}).
Proof.
  apply (merge_nothing_to_do 0 students [] (input_reader [])
           (initial_state context0 []) context0).
  - reflexivity.
  - right. reflexivity.
Defined.

(** ** Where the exceptions of [merge] come from *)

(** X10 — Where an exception of [merge] comes from.  When [merge]
    raises, there are a student [s] and a page index [i] of the input
    at which either the mapping has no entry [i] (and the exception is
    the [IndexError] of [mapping[page_num]]) or the factory
    [mapping[i]] raised that exception under the context holding that
    student and page number; for every student and page before that
    point the mapping had an entry and its factory returned a mask; the
    context is left holding that student and page number, and the
    writer under construction holds the [s * n + i] pages made before. *)
Theorem merge_exception_origin
    context students mapping input_pdf tpls st ctx e st' :
  dict_store st !! context = Some ctx →
  reader_ok st input_pdf tpls →
  merge context students mapping input_pdf st = (Raise e, st') →
  ∃ s i student,
    students !! s = Some student ∧ i < getNumPages input_pdf
    ∧ match mapping !! i with
      | None => e = IndexError
      | Some f => get_mask_page f (ctx_at ctx student i) = Raise e
      end
    ∧ (∀ s' i' student',
         students !! s' = Some student' → i' < getNumPages input_pdf →
         s' * getNumPages input_pdf + i' < s * getNumPages input_pdf + i →
         ∃ f, mapping !! i' = Some f
              ∧ is_Ok (get_mask_page f (ctx_at ctx student' i')) = true)
    ∧ dict_store st' !! context = Some (ctx_at ctx student i)
    ∧ length (writer_pages st' (length (writer_store st)))
      = (s * getNumPages input_pdf + i)%nat.
Proof.
  intros Hctx Hok Hrun.
  pose proof (reader_ok_length _ _ _ Hok) as Hlen. unfold getNumPages.
  rewrite Hlen.
  destruct (collect (all_jobs mapping ctx tpls students)) as [ps f] eqn:Hc.
  destruct (merge_run context students mapping input_pdf tpls st ctx ps f
              Hctx Hok Hc) as (c & Hrun' & _ & _ & _ & Hfail).
  rewrite Hrun' in Hrun. destruct f as [[tpl e']|]; [|done].
  simpl in Hrun. injection Hrun as -> <-.
  destruct (Hfail ltac:(done)) as (s & i & student & Hs & Hi & Hps & ->).
  apply collect_Some in Hc as [Hbefore Hjob].
  destruct (lookup_lt_is_Some_2 tpls i Hi) as [tpli Htpli].
  pose proof (all_jobs_lookup mapping ctx tpls students s i student tpli Hs Htpli)
    as Hj.
  rewrite Hps Hj in Hjob. injection Hjob as -> Hp.
  exists s, i, student. split_and!; try done.
  - unfold personalize, list_getitem, mbind, res_bind in Hp.
    destruct (mapping !! i) as [f|]; [|by injection Hp].
    destruct (get_mask_page f (ctx_at ctx student i)); [done|].
    by injection Hp as ->.
  - intros s' i' student' Hs' Hi' Hlt.
    destruct (lookup_lt_is_Some_2 tpls i' Hi') as [tpl' Htpl'].
    pose proof (all_jobs_lookup mapping ctx tpls students s' i' student' tpl'
                  Hs' Htpl') as Hj'.
    assert (take (length ps) (all_jobs mapping ctx tpls students)
              !! (s' * length tpls + i')%nat
            = Some (tpl', personalize mapping (ctx_at ctx student' i') tpl' i'))
      as Hj''.
    { rewrite lookup_take_lt; [done | lia]. }
    destruct (Forall2_lookup_l _ _ _ _ _ Hbefore Hj'') as (p & _ & Hjob').
    simpl in Hjob'. apply personalize_Ok in Hjob' as (f & mask & Hf & Hm & _).
    exists f. by rewrite Hm.
  - simpl. apply list_lookup_insert_eq. by eapply lookup_lt_Some.
  - by rewrite writer_pages_run.
Qed.

Lemma merge_exception_origin_witness :
  ∃ s i student,
    students !! s = Some student ∧ i < 6
    ∧ match mapping !! i with
      | None => IndexError = IndexError
      | Some f => get_mask_page f (ctx_at context0 student i) = Raise IndexError
      end
    ∧ dict_store (run_script long_template).2 !! 0%nat
      = Some (ctx_at context0 student i)
    ∧ length (writer_pages (run_script long_template).2 0) = (s * 6 + i)%nat.
Proof.
  destruct (merge_exception_origin 0 students mapping
              (input_reader long_template) long_template
              (initial_state context0 long_template) context0 IndexError
              (run_script long_template).2)
    as (s & i & student & Hs & Hi & He & _ & Hd & Hlen).
  - reflexivity.
  - vm_compute. reflexivity.
  - vm_compute. reflexivity.
  - exists s, i, student.
    split; [exact Hs|]. split; [exact Hi|]. split; [exact He|].
    split; [exact Hd | exact Hlen].
Defined.

(** ** The script as a whole *)

Lemma mapM_lookup_seq {A} (b a : list A) :
  mapM (λ l, (a ++ b) !! l) (seq (length a) (length b)) = Some b.
Proof.
  revert a. induction b as [|x b IH]; intros a; [done|].
  simpl. rewrite list_lookup_middle; [|done]. simpl.
  specialize (IH (a ++ [x])). rewrite length_app Nat.add_1_r -app_assoc in IH.
  simpl in IH. by rewrite IH.
Qed.

Lemma reader_ok_initial ctx doc :
  reader_ok (initial_state ctx doc) (input_reader doc) doc.
Proof. apply (mapM_lookup_seq doc []). Qed.

(** Every factory of the script's mapping returns a mask for every
    student of the script, under the script's context. *)
Lemma script_masks_return s i f :
  s ∈ students → mapping !! i = Some f →
  is_Ok (get_mask_page f (ctx_at context0 s i)) = true.
Proof.
  intros Hs Hf. unfold students in Hs.
  repeat (apply elem_of_cons in Hs as [->|Hs]);
    [ .. | by apply elem_of_nil in Hs ];
    do 5 (destruct i as [|i]; [injection Hf as <-; vm_compute; reflexivity|]);
    done.
Qed.

Lemma run_script_short doc :
  length doc ≤ 5 →
  ∃ ps st,
    run_script doc = (Ok 0%nat, st) ∧ writer_pages st 0 = ps
    ∧ collect (all_jobs mapping context0 doc students) = (ps, None).
Proof.
  intros Hn.
  destruct (all_jobs_succeed mapping context0 doc students) as [ps Hps].
  { exact Hn. }
  { intros student i f Hs Hf _. by apply script_masks_return. }
  destruct (merge_run 0 students mapping (input_reader doc) doc
              (initial_state context0 doc) context0 ps None
              eq_refl (reader_ok_initial _ _) Hps) as (c & Hrun & _).
  eexists ps, _. split_and!; [exact Hrun | | done].
  apply (writer_pages_run _ doc ps [] []).
Qed.

Lemma run_script_long doc :
  5 < length doc → ∃ st, run_script doc = (Raise IndexError, st).
Proof.
  intros Hn.
  destruct (jobs_mapping_too_short mapping context0 doc
              (student "Jonathan" "Stoppani" 123455)
              [student "Vanessa" "Tay" 98635; student "Jakub" "Janoszek" 19757])
    as (ps & tpl & Hc & _).
  { exact Hn. }
  { intros i f Hf. apply script_masks_return; [|done]. apply elem_of_cons. by left. }
  destruct (merge_run 0 students mapping (input_reader doc) doc
              (initial_state context0 doc) context0 ps (Some (tpl, IndexError))
              eq_refl (reader_ok_initial _ _) Hc) as (c & Hrun & _).
  eexists. exact Hrun.
Qed.

(** X11 — Three ways a run of the script fails, and what they leave
    behind.  With fewer than two arguments the run ends with the
    [IndexError] of [sys.argv[1]] or [sys.argv[2]]; when the input file
    cannot be opened, with that error; when the input is a document of
    more than five pages, with the [IndexError] of [mapping[page_num]]
    that [merge] raises on the first student's sixth page.  In each of
    these runs no file is written or changed: the output file is opened
    only after [merge] has returned. *)
Theorem main_failure argv fs :
  (length argv ≤ 2 → main argv fs = (Some (Raised IndexError), fs))
  ∧ (∀ input_path,
       argv !! 1%nat = Some input_path → 2 < length argv →
       fs !! input_path = None →
       main argv fs = (Some (IOError input_path), fs))
  ∧ (∀ input_path doc,
       argv !! 1%nat = Some input_path → 2 < length argv →
       fs !! input_path = Some doc → 5 < length doc →
       main argv fs = (Some (Raised IndexError), fs)).
Proof.
  unfold main, list_getitem. split_and!.
  - intros Hlen.
    destruct (argv !! 1%nat) as [input_path|] eqn:H1; [|done].
    rewrite (lookup_ge_None_2 argv 2); [done | lia].
  - intros input_path H1 Hlen Hin.
    destruct (lookup_lt_is_Some_2 argv 2 Hlen) as [output_path H2].
    by rewrite H1 H2 Hin.
  - intros input_path doc H1 Hlen Hin Hdoc.
    destruct (lookup_lt_is_Some_2 argv 2 Hlen) as [output_path H2].
    destruct (run_script_long doc Hdoc) as (st & Hrun).
    by rewrite H1 H2 Hin Hrun.
Qed.

Lemma main_failure_witness :
  main ["mark.py"; "in.pdf"; "out.pdf"]%string {["in.pdf"%string := long_template]}
  = (Some (Raised IndexError), {["in.pdf"%string := long_template]}).
Proof.
  apply (proj2 (proj2 (main_failure ["mark.py"; "in.pdf"; "out.pdf"]%string
                         {["in.pdf"%string := long_template]}))
           "in.pdf"%string long_template).
  - reflexivity.
  - simpl. lia.
  - reflexivity.
  - vm_compute. lia.
Defined.

(** X12 — What a run of the script writes.  Given two arguments that
    name different files, the first of them a document of [n] pages
    with [n] at most five, the script ends without failure; afterwards
    the output file holds [3 * n] pages, for each of the three students
    in turn each input page with its mask merged onto it, and every
    other file, the input file among them, is as it was. *)
Theorem main_success argv input_path output_path doc fs :
  argv !! 1%nat = Some input_path →
  argv !! 2%nat = Some output_path →
  input_path ≠ output_path →
  fs !! input_path = Some doc →
  length doc ≤ 5 →
  ∃ pages,
    main argv fs = (None, <[output_path := pages]> fs)
    ∧ <[output_path := pages]> fs !! input_path = Some doc
    ∧ length pages = (3 * length doc)%nat
    ∧ ∀ s i student tpl,
        students !! s = Some student → doc !! i = Some tpl →
        ∃ f mask,
          mapping !! i = Some f
          ∧ get_mask_page f (ctx_at context0 student i) = Ok mask
          ∧ pages !! (s * length doc + i)%nat
            = Some (PageObject_mergePage tpl mask).
Proof.
  intros H1 H2 Hne Hin Hn.
  destruct (run_script_short doc Hn) as (ps & st & Hrun & Hps & Hc).
  exists ps. split_and!.
  - unfold main, list_getitem. by rewrite H1 H2 Hin Hrun Hps.
  - by rewrite lookup_insert_ne.
  - by rewrite (produced_length _ _ _ _ _ Hc).
  - intros s i student tpl Hs Hi. by eapply produced_lookup.
Qed.

Lemma main_success_witness :
  ∃ pages,
    main ["mark.py"; "in.pdf"; "out.pdf"]%string {["in.pdf"%string := template]}
    = (None, <["out.pdf"%string := pages]> {["in.pdf"%string := template]})
    ∧ length pages = 15%nat.
Proof.
  destruct (main_success ["mark.py"; "in.pdf"; "out.pdf"]%string
              "in.pdf" "out.pdf" template {["in.pdf"%string := template]})
    as (pages & Hrun & _ & Hlen & _).
  - reflexivity.
  - reflexivity.
  - discriminate.
  - reflexivity.
  - vm_compute. lia.
  - exists pages. split; [exact Hrun | exact Hlen].
Defined.

(** ** The drawing library says no *)

(** A box of 2 mm is lower than the top padding of its frame: the
    rectangle is drawn, the table is not, and nothing is raised. *)
Lemma low_box_has_no_table :
  ∃ box,
    get_mask_page
      (TaskPageMask__init__ (2 * mm) (20.5 * mm) (14.5 * mm) (28 * mm))
      sample_context
    = Ok {| contents := [box] |}.
Proof. eexists. vm_compute. reflexivity. Qed.

(** Finite arguments can give a box that is no number: the left margin
    of this [AnswerSheetMask] is minus infinity, and [rect] refuses to
    write it. *)
Lemma infinite_box_raises :
  get_mask_page (AnswerSheetMask__init__ (10 * mm) 1e308 1e308 (15 * mm))
    sample_context
  = Raise OverflowError.
Proof. vm_compute. reflexivity. Qed.

(** An id of 5001 digits cannot be turned into text. *)
Lemma long_id_raises :
  get_mask_page simple_header_mask
    (<["student" := VDict {["id" := VInt (10 ^ 5000)]}]> sample_context)
  = Raise ValueError.
Proof. vm_compute. reflexivity. Qed.
